(** * tools/summarize_logs.py: the log summarizer, embedded and verified

    The program reads poker-platform events (JSON) from standard input,
    keeps the events that mention a team, and prints a tab-separated
    table.  This file embeds the program as Rocq functions, following
    the Python source statement by statement, and proves the properties
    of its specification.

    Conventions of the embedding:
    - a Python [str] is a [string]; its characters are the code points
      0..255, so [len], [in], [strip], [splitlines] and the regular
      expression classes are the ones Python has on these code points;
    - a decoded JSON value is a [json]; a Python [dict] is the list of
      its items in insertion order, with distinct keys;
    - an expression that may raise returns a [res]; statements run in
      the monad [Py], whose state is the text written to standard
      output so far. *)

From Stdlib Require Import String Ascii List ZArith Bool Arith Lia.
From Stdlib Require Import DecimalString DecimalNat.
Import ListNotations.

Open Scope string_scope.
Open Scope list_scope.

Infix "+:+" := String.append (at level 60, right associativity).

(** ** Python strings *)

Module PyStr.

Definition tab : string := String "009"%char "".
Definition nl : string := String "010"%char "".

Definition code (c : ascii) : nat := nat_of_ascii c.

Definition between (lo hi : nat) (c : ascii) : bool :=
  Nat.leb lo (code c) && Nat.leb (code c) hi.

Definition is_code (n : nat) (c : ascii) : bool := Nat.eqb (code c) n.

(** [\d] of [re] on [str]: the decimal digits. *)
Definition is_digit (c : ascii) : bool := between 48 57 c.

(** [\w] of [re] on [str]: the alphanumeric characters and the
    underscore.  Below 256 the alphanumeric ones are the ASCII letters
    and digits, the Latin-1 letters, and the superscripts and
    fractions (which [isdigit] or [isnumeric] accept). *)
Definition is_word (c : ascii) : bool :=
  between 48 57 c || between 65 90 c || between 97 122 c
  || is_code 95 c
  || is_code 170 c || is_code 178 c || is_code 179 c
  || is_code 181 c || is_code 185 c || is_code 186 c
  || between 188 190 c
  || between 192 214 c || between 216 246 c || between 248 255 c.

(** [str.isspace] on one character: what [str.strip] removes. *)
Definition is_space (c : ascii) : bool :=
  between 9 13 c || between 28 32 c || is_code 133 c || is_code 160 c.

(** The line boundaries of [str.splitlines]. *)
Definition is_linebreak (c : ascii) : bool :=
  between 10 13 c || between 28 30 c || is_code 133 c.

Definition is_empty (s : string) : bool :=
  match s with "" => true | _ => false end.

Fixpoint lstrip (s : string) : string :=
  match s with
  | String c s' => if is_space c then lstrip s' else s
  | "" => ""
  end.

Fixpoint rstrip (s : string) : string :=
  match s with
  | String c s' =>
      let r := rstrip s' in
      if is_empty r && is_space c then "" else String c r
  | "" => ""
  end.

(** [s.strip()] *)
Definition strip (s : string) : string := rstrip (lstrip s).

(** [s.splitlines()]: [cur] is the line being read.  A boundary closes
    the line, a carriage return followed by a line feed is one
    boundary, and no empty line is reported after the last boundary. *)
Fixpoint splitlines_from (cur s : string) : list string :=
  match s with
  | "" => if is_empty cur then [] else [cur]
  | String c s' =>
      if is_linebreak c then
        cur :: match s' with
               | String d s'' =>
                   if is_code 13 c && is_code 10 d
                   then splitlines_from "" s''
                   else splitlines_from "" s'
               | "" => []
               end
      else splitlines_from (cur +:+ String c "") s'
  end.

Definition splitlines (s : string) : list string := splitlines_from "" s.

(** [needle in hay] for two strings. *)
Fixpoint contains (hay needle : string) : bool :=
  prefix needle hay
  || match hay with
     | String _ hay' => contains hay' needle
     | "" => false
     end.

(** [sep.join(parts)] *)
Definition join (sep : string) (parts : list string) : string :=
  String.concat sep parts.

(** The longest prefix of [s] whose characters satisfy [p], and the
    rest of [s]. *)
Fixpoint span (p : ascii -> bool) (s : string) : string * string :=
  match s with
  | String c s' =>
      if p c then let (a, b) := span p s' in (String c a, b) else ("", s)
  | "" => ("", "")
  end.

Fixpoint all_chars (p : ascii -> bool) (s : string) : bool :=
  match s with
  | String c s' => p c && all_chars p s'
  | "" => true
  end.

(** How often the character [c] occurs in [s]. *)
Fixpoint count_char (c : ascii) (s : string) : nat :=
  match s with
  | String d s' => (if Ascii.eqb c d then 1 else 0) + count_char c s'
  | "" => 0
  end.

(** [str(n)] for a natural number and for an integer. *)
Definition str_nat (n : nat) : string :=
  NilZero.string_of_uint (Nat.to_uint n).

Definition str_int (z : Z) : string :=
  NilZero.string_of_int (Z.to_int z).

End PyStr.
Import PyStr.

Example splitlines_ex :
  splitlines ("a" +:+ nl +:+ nl +:+ "b" +:+ nl) = ["a"; ""; "b"].
Proof. reflexivity. Qed.

(** ** Values and exceptions *)

(** What [json.loads] returns.  A [float] is kept as the numeral it was
    read from: the program only ever prints it. *)
#[warnings="-register-all"]
Inductive json : Type :=
| JNull
| JBool (b : bool)
| JInt (z : Z)
| JFloat (numeral : string)
| JStr (s : string)
| JArr (items : list json)
| JObj (fields : list (string * json)).

(** The exceptions the program can meet. *)
Inductive exn : Type :=
| AttributeError
| TypeError
| JSONDecodeError.

(** The result of evaluating an expression. *)
Inductive res (A : Type) : Type :=
| Ok (a : A)
| Raise (e : exn).
Arguments Ok {A} a.
Arguments Raise {A} e.

Definition res_bind {A B : Type} (r : res A) (k : A -> res B) : res B :=
  match r with
  | Ok a => k a
  | Raise e => Raise e
  end.

Notation "'let*' x ':=' r 'in' k" := (res_bind r (fun x => k))
  (at level 10, x name, r at level 100, k at level 200).

(** ** Python operations on decoded values *)

Module PyVal.

(** [d[k]] of a dictionary, when the key is there. *)
Fixpoint lookup (k : string) (fields : list (string * json)) : option json :=
  match fields with
  | (k', v) :: rest => if String.eqb k k' then Some v else lookup k rest
  | [] => None
  end.

(** [d[k] = v]: a key that is there keeps its place. *)
Fixpoint dict_set (fields : list (string * json)) (k : string) (v : json)
  : list (string * json) :=
  match fields with
  | (k', v') :: rest =>
      if String.eqb k k' then (k', v) :: rest
      else (k', v') :: dict_set rest k v
  | [] => [(k, v)]
  end.

(** [x.get(k, default)]: only a dictionary has the method. *)
Definition get (x : json) (k : string) (default : json) : res json :=
  match x with
  | JObj fields =>
      Ok (match lookup k fields with Some v => v | None => default end)
  | _ => Raise AttributeError
  end.

(** [len(x)] *)
Definition len (x : json) : res nat :=
  match x with
  | JStr s => Ok (String.length s)
  | JArr items => Ok (List.length items)
  | JObj fields => Ok (List.length fields)
  | _ => Raise TypeError
  end.

(** [x == s] for a string [s]: a value of another type is different. *)
Definition eq_str (x : json) (s : string) : bool :=
  match x with
  | JStr s' => String.eqb s' s
  | _ => false
  end.

(** [s in x] for a string [s]: a substring of a string, an item of a
    list, a key of a dictionary. *)
Definition str_in (s : string) (x : json) : res bool :=
  match x with
  | JStr hay => Ok (contains hay s)
  | JArr items => Ok (existsb (fun y => eq_str y s) items)
  | JObj fields => Ok (existsb (fun kv => String.eqb (fst kv) s) fields)
  | _ => Raise TypeError
  end.

(** The characters of a string, each as a string. *)
Fixpoint chars (s : string) : list json :=
  match s with
  | String c s' => JStr (String c "") :: chars s'
  | "" => []
  end.

(** What [for ev in x] visits. *)
Definition iterate (x : json) : res (list json) :=
  match x with
  | JArr items => Ok items
  | JObj fields => Ok (map (fun kv => JStr (fst kv)) fields)
  | JStr s => Ok (chars s)
  | _ => Raise TypeError
  end.

(** [a and b], where [b] is evaluated only when [a] holds. *)
Definition and_then (a : bool) (b : res bool) : res bool :=
  if a then b else Ok false.

Section Format.
(** The two renderings the interpreter supplies: [str] of the float
    read from a numeral, and [repr] of a string. *)
Variable float_str : string -> string.
Variable str_repr : string -> string.

(** [repr(x)] *)
Fixpoint repr (x : json) : string :=
  match x with
  | JNull => "None"
  | JBool true => "True"
  | JBool false => "False"
  | JInt z => str_int z
  | JFloat numeral => float_str numeral
  | JStr s => str_repr s
  | JArr items => "[" +:+ join ", " (map repr items) +:+ "]"
  | JObj fields =>
      "{" +:+ join ", "
            (map (fun kv => str_repr (fst kv) +:+ ": " +:+ repr (snd kv))
               fields)
      +:+ "}"
  end.

(** [str(x)], which is what [{x}] in an f-string gives. *)
Definition str (x : json) : string :=
  match x with
  | JStr s => s
  | _ => repr x
  end.
End Format.

End PyVal.

(** ** Regular expressions

    The fragment of [re] the program uses: literal text, a greedy
    repetition of a character class, capture groups, sequence and
    ordered alternative.  The matcher backtracks as [re] does: an
    alternative is tried in order, a repetition takes as much as it can
    and gives back one character at a time, and the first success
    wins. *)

Module Re.

Inductive regex : Type :=
| Lit (s : string)
| Plus (p : ascii -> bool)
| Group (i : nat) (r : regex)
| Seq (r1 r2 : regex)
| Alt (r1 r2 : regex).

(** The groups that took part in a match, the last binding first. *)
Definition groups : Type := list (nat * string).

(** [m.group(i)]: [None] when the group took no part. *)
Fixpoint group (i : nat) (g : groups) : option string :=
  match g with
  | (j, s) :: rest => if Nat.eqb i j then Some s else group i rest
  | [] => None
  end.

(** What is left of [text] after the literal [s], if [text] starts
    with it. *)
Fixpoint lit (s text : string) : option string :=
  match s with
  | "" => Some text
  | String c s' =>
      match text with
      | String d text' => if Ascii.eqb c d then lit s' text' else None
      | "" => None
      end
  end.

(** One or more characters of the class [p], the longest run first. *)
Fixpoint plus {A : Type} (p : ascii -> bool) (text : string)
  (k : string -> option A) : option A :=
  match text with
  | String c text' =>
      if p c then
        match plus p text' k with
        | Some a => Some a
        | None => k text'
        end
      else None
  | "" => None
  end.

(** The part of [text] in front of its suffix [rest]. *)
Definition consumed (text rest : string) : string :=
  substring 0 (String.length text - String.length rest) text.

(** Match [r] at the start of [text], then go on with [k] on the rest
    of the text and the groups bound so far. *)
Fixpoint run {A : Type} (r : regex) (text : string) (g : groups)
  (k : string -> groups -> option A) : option A :=
  match r with
  | Lit s =>
      match lit s text with
      | Some rest => k rest g
      | None => None
      end
  | Plus p => plus p text (fun rest => k rest g)
  | Group i r' =>
      run r' text g (fun rest g' => k rest ((i, consumed text rest) :: g'))
  | Seq r1 r2 => run r1 text g (fun rest g' => run r2 rest g' k)
  | Alt r1 r2 =>
      match run r1 text g k with
      | Some a => Some a
      | None => run r2 text g k
      end
  end.

(** [re.match(r, text)]: a match at the start of the text. *)
Definition match_at (r : regex) (text : string) : option groups :=
  run r text [] (fun _ g => Some g).

(** [re.search(r, text)]: the match at the leftmost position that has
    one. *)
Fixpoint search (r : regex) (text : string) : option groups :=
  match match_at r text with
  | Some g => Some g
  | None =>
      match text with
      | String _ text' => search r text'
      | "" => None
      end
  end.

End Re.

(** The pattern [r"bet of (\d+)|bet of 0 \((\w+)\)"] of the program. *)
Definition first_alternative : Re.regex :=
  Re.Seq (Re.Lit "bet of ") (Re.Group 1 (Re.Plus is_digit)).

Definition second_alternative : Re.regex :=
  Re.Seq (Re.Lit "bet of 0 (")
    (Re.Seq (Re.Group 2 (Re.Plus is_word)) (Re.Lit ")")).

Definition amount_pattern : Re.regex :=
  Re.Alt first_alternative second_alternative.

Example search_raise :
  Re.search amount_pattern "Team: bet of 40 (raise)" = Some [(1, "40")].
Proof. reflexivity. Qed.

Example search_fold :
  Re.search amount_pattern "Team: bet of 0 (fold)" = Some [(1, "0")].
Proof. reflexivity. Qed.

Example second_alone :
  Re.match_at second_alternative "bet of 0 (fold) x" = Some [(2, "fold")].
Proof. reflexivity. Qed.

(** ** The decoder

    [json.loads] belongs to the Python library, not to the program.
    The program below is parametrised by the decoder and every general
    theorem holds for any decoder.  [Decoder.loads] is an executable
    model of the library's decoder on the alphabet of this file; it
    decodes the concrete inputs of the examples.  [None] stands for a
    raised [JSONDecodeError]. *)

Module Decoder.

Definition is_ws (c : ascii) : bool :=
  is_code 32 c || is_code 9 c || is_code 10 c || is_code 13 c.

Fixpoint skip_ws (s : string) : string :=
  match s with
  | String c s' => if is_ws c then skip_ws s' else s
  | "" => ""
  end.

Definition hex_val (c : ascii) : option nat :=
  if between 48 57 c then Some (code c - 48)
  else if between 65 70 c then Some (code c - 55)
  else if between 97 102 c then Some (code c - 87)
  else None.

Definition hex4 (a b c d : ascii) : option nat :=
  match hex_val a, hex_val b, hex_val c, hex_val d with
  | Some x, Some y, Some z, Some w => Some (((x * 16 + y) * 16 + z) * 16 + w)
  | _, _, _, _ => None
  end.

(** The character a one-letter escape stands for. *)
Definition unescape (c : ascii) : option ascii :=
  if is_code 34 c || is_code 92 c || is_code 47 c then Some c
  else if is_code 98 c then Some "008"%char
  else if is_code 102 c then Some "012"%char
  else if is_code 110 c then Some "010"%char
  else if is_code 114 c then Some "013"%char
  else if is_code 116 c then Some "009"%char
  else None.

Definition cons_char (c : ascii) (r : option (string * string))
  : option (string * string) :=
  match r with
  | Some (s, rest) => Some (String c s, rest)
  | None => None
  end.

(** A string literal after its opening quote: its content and the
    text after the closing quote.  A raw control character is refused,
    and so is an escape that names a code point outside the
    alphabet. *)
Fixpoint scan_string (s : string) : option (string * string) :=
  match s with
  | "" => None
  | String c s' =>
      if is_code 34 c then Some ("", s')
      else if is_code 92 c then
        match s' with
        | String e s'' =>
            if is_code 117 e then
              match s'' with
              | String h1 (String h2 (String h3 (String h4 r))) =>
                  match hex4 h1 h2 h3 h4 with
                  | Some n =>
                      if Nat.ltb n 256
                      then cons_char (ascii_of_nat n) (scan_string r)
                      else None
                  | None => None
                  end
              | _ => None
              end
            else
              match unescape e with
              | Some ch => cons_char ch (scan_string s'')
              | None => None
              end
        | "" => None
        end
      else if Nat.ltb (code c) 32 then None
      else cons_char c (scan_string s')
  end.

Fixpoint digits_value (acc : Z) (s : string) : Z :=
  match s with
  | String c s' => digits_value (acc * 10 + Z.of_nat (code c - 48)) s'
  | "" => acc
  end.

(** The integer part: an optional minus sign, then a single zero or a
    nonzero digit followed by digits. *)
Definition scan_integer (s : string) : option (string * string) :=
  let (sign, s1) :=
    match s with
    | String c r => if is_code 45 c then ("-", r) else ("", s)
    | "" => ("", s)
    end in
  match s1 with
  | String c r =>
      if is_code 48 c then Some (sign +:+ "0", r)
      else if between 49 57 c then
        let (ds, r') := span is_digit r in Some (sign +:+ String c ds, r')
      else None
  | "" => None
  end.

(** The optional fraction: a dot and one or more digits. *)
Definition scan_fraction (s : string) : string * string :=
  match s with
  | String c r =>
      if is_code 46 c then
        let (ds, r') := span is_digit r in
        if is_empty ds then ("", s) else (String c ds, r')
      else ("", s)
  | "" => ("", s)
  end.

(** The optional exponent: [e] or [E], an optional sign, one or more
    digits. *)
Definition scan_exponent (s : string) : string * string :=
  match s with
  | String c r =>
      if is_code 101 c || is_code 69 c then
        let (sg, r1) :=
          match r with
          | String d r' =>
              if is_code 45 d || is_code 43 d then (String d "", r')
              else ("", r)
          | "" => ("", r)
          end in
        let (ds, r2) := span is_digit r1 in
        if is_empty ds then ("", s) else (String c (sg +:+ ds), r2)
      else ("", s)
  | "" => ("", s)
  end.

(** A number: an [int] when it has neither fraction nor exponent. *)
Definition scan_number (s : string) : option (json * string) :=
  match scan_integer s with
  | Some (ip, r1) =>
      let (frac, r2) := scan_fraction r1 in
      let (ex, r3) := scan_exponent r2 in
      if is_empty frac && is_empty ex then
        Some (match ip with
              | String c ds =>
                  if is_code 45 c then JInt (- digits_value 0 ds)
                  else JInt (digits_value 0 ip)
              | "" => JInt 0
              end, r3)
      else Some (JFloat (ip +:+ frac +:+ ex), r3)
  | None => None
  end.

Definition scan_constant (s : string) : option (json * string) :=
  match Re.lit "null" s with
  | Some r => Some (JNull, r)
  | None =>
  match Re.lit "true" s with
  | Some r => Some (JBool true, r)
  | None =>
  match Re.lit "false" s with
  | Some r => Some (JBool false, r)
  | None =>
  match scan_number s with
  | Some vr => Some vr
  | None =>
  match Re.lit "NaN" s with
  | Some r => Some (JFloat "NaN", r)
  | None =>
  match Re.lit "Infinity" s with
  | Some r => Some (JFloat "Infinity", r)
  | None =>
  match Re.lit "-Infinity" s with
  | Some r => Some (JFloat "-Infinity", r)
  | None => None
  end end end end end end end.

(** One value at the start of [s]; [members] reads an object from the
    opening quote of a key on, [elements] an array from the start of
    an item on.  Every call reads at least one character before the
    next one, so the length of the text bounds the calls. *)
Fixpoint scan_once (fuel : nat) (s : string) : option (json * string) :=
  match fuel with
  | O => None
  | S fuel' =>
      match s with
      | String c r =>
          if is_code 34 c then
            match scan_string r with
            | Some (str, r') => Some (JStr str, r')
            | None => None
            end
          else if is_code 123 c then
            match skip_ws r with
            | String d r' =>
                if is_code 125 d then Some (JObj [], r')
                else members fuel' (skip_ws r) []
            | "" => None
            end
          else if is_code 91 c then
            match skip_ws r with
            | String d r' =>
                if is_code 93 d then Some (JArr [], r')
                else elements fuel' (skip_ws r) []
            | "" => None
            end
          else scan_constant s
      | "" => None
      end
  end
with members (fuel : nat) (s : string) (acc : list (string * json))
  : option (json * string) :=
  match fuel with
  | O => None
  | S fuel' =>
      match s with
      | String q r =>
          if is_code 34 q then
            match scan_string r with
            | Some (key, r1) =>
                match skip_ws r1 with
                | String colon r2 =>
                    if is_code 58 colon then
                      match scan_once fuel' (skip_ws r2) with
                      | Some (v, r3) =>
                          match skip_ws r3 with
                          | String d r4 =>
                              if is_code 125 d then
                                Some (JObj (PyVal.dict_set acc key v), r4)
                              else if is_code 44 d then
                                members fuel' (skip_ws r4)
                                  (PyVal.dict_set acc key v)
                              else None
                          | "" => None
                          end
                      | None => None
                      end
                    else None
                | "" => None
                end
            | None => None
            end
          else None
      | "" => None
      end
  end
with elements (fuel : nat) (s : string) (acc : list json)
  : option (json * string) :=
  match fuel with
  | O => None
  | S fuel' =>
      match scan_once fuel' s with
      | Some (v, r1) =>
          match skip_ws r1 with
          | String d r2 =>
              if is_code 93 d then Some (JArr (acc ++ [v]), r2)
              else if is_code 44 d then elements fuel' (skip_ws r2) (acc ++ [v])
              else None
          | "" => None
          end
      | None => None
      end
  end.

(** [json.loads(s)]: one value, with white space around it and
    nothing else. *)
Definition loads (s : string) : option json :=
  match scan_once (S (String.length s)) (skip_ws s) with
  | Some (v, r) => if is_empty (skip_ws r) then Some v else None
  | None => None
  end.

End Decoder.

(** Texts with quotes are written with an apostrophe for each double
    quote. *)
Fixpoint quoted (s : string) : string :=
  match s with
  | String c s' => String (if is_code 39 c then "034"%char else c) (quoted s')
  | "" => ""
  end.

Example loads_event :
  Decoder.loads
    (quoted "[{'type':'bet','message':'T: bet of 40 (raise)','game_state':{'round':3,'community_cards':[],'pot':100,'current_buy_in':40}}]")
  = Some (JArr [JObj [("type", JStr "bet");
                      ("message", JStr "T: bet of 40 (raise)");
                      ("game_state",
                        JObj [("round", JInt 3); ("community_cards", JArr []);
                              ("pot", JInt 100); ("current_buy_in", JInt 40)])]]).
Proof. reflexivity. Qed.

Example loads_more :
  Decoder.loads (quoted " [1.50, -0, 'a\u0041\n', {'k':null,'k':true}, 1e5 ] ")
  = Some (JArr [JFloat "1.50"; JInt 0; JStr ("aA" +:+ nl);
                JObj [("k", JBool true)]; JFloat "1e5"])
  /\ Decoder.loads "" = None
  /\ Decoder.loads "[1,]" = None
  /\ Decoder.loads "01" = None
  /\ Decoder.loads "{} {}" = None.
Proof. repeat split; reflexivity. Qed.

(** ** Statements

    A statement reads and extends the text written to standard output
    and either completes or raises. *)

Definition Py (A : Type) : Type := string -> string * res A.

Definition ret {A : Type} (a : A) : Py A := fun out => (out, Ok a).

Definition bind {A B : Type} (c : Py A) (k : A -> Py B) : Py B :=
  fun out =>
    match c out with
    | (out', Ok a) => k a out'
    | (out', Raise e) => (out', Raise e)
    end.

(** An expression evaluated inside a statement. *)
Definition lift {A : Type} (r : res A) : Py A := fun out => (out, r).

(** [print(line)] *)
Definition print (line : string) : Py unit :=
  fun out => (out +:+ line +:+ nl, Ok tt).

Notation "x <- c ;; k" := (bind c (fun x => k))
  (at level 61, c at next level, right associativity).
Notation "c ;; k" := (bind c (fun _ => k))
  (at level 61, right associativity).

(** [for x in xs: body(x)] *)
Fixpoint for_each {A : Type} (xs : list A) (body : A -> Py unit) : Py unit :=
  match xs with
  | x :: xs' => body x ;; for_each xs' body
  | [] => ret tt
  end.

(** What the interpreter and its library supply to the program:
    [json.loads] ([None] when it raises), [str] of the float read from
    a numeral, and [repr] of a string. *)
Record runtime : Type := {
  loads : string -> option json;
  float_str : string -> string;
  str_repr : string -> string
}.

(** The runtime of the examples: the decoder above, a float shown as
    its numeral, a string shown between apostrophes.  The examples
    print neither floats nor strings inside lists. *)
Definition model_runtime : runtime := {|
  loads := Decoder.loads;
  float_str := fun numeral => numeral;
  str_repr := fun s => "'" +:+ s +:+ "'"
|}.

(** ** The program *)

(** [{0: "PRE", 3: "FLOP", 4: "TURN", 5: "RIVER"}.get(n, default)] *)
Fixpoint table_get (table : list (nat * string)) (n : nat) (default : string)
  : string :=
  match table with
  | (k, v) :: rest => if Nat.eqb n k then v else table_get rest n default
  | [] => default
  end.

Definition street_from_state (state : json) : res string :=
  let* cc := PyVal.get state "community_cards" (JArr []) in
  let* n := PyVal.len cc in
  Ok (table_get [(0, "PRE"); (3, "FLOP"); (4, "TURN"); (5, "RIVER")]
        n (str_nat n)).

(** [re.search(pattern, msg)]: only a string can be searched. *)
Definition re_search (pattern : Re.regex) (msg : json)
  : res (option Re.groups) :=
  match msg with
  | JStr s => Ok (Re.search pattern s)
  | _ => Raise TypeError
  end.

(** [amt = "0"; if m: amt = m.group(1) or "0"] *)
Definition amount_of (m : option Re.groups) : string :=
  match m with
  | Some g =>
      match Re.group 1 g with
      | Some digits => if is_empty digits then "0" else digits
      | None => "0"
      end
  | None => "0"
  end.

(** The conditional expression that computes [act]; each test is
    evaluated only when the ones before it failed. *)
Definition action_of (msg : json) (amt : string) : res string :=
  let* is_call := PyVal.str_in "(call)" msg in
  if is_call : bool then Ok "call" else
  let* is_raise := PyVal.str_in "(raise)" msg in
  if is_raise : bool then Ok "raise" else
  let* is_check := PyVal.str_in "(check)" msg in
  if is_check : bool then Ok "check" else
  if negb (String.eqb amt "0") then Ok "bet" else
  let* is_fold := PyVal.str_in "(fold)" msg in
  if is_fold : bool then Ok "fold" else Ok "?".

Definition header : string :=
  join tab ["round"; "street"; "action"; "amount"; "pot"; "buyin"; "message"].

Definition default_team : string := "The Real Donkey Killers".

Section Program.
Variable rt : runtime.

(** [f"{x}"] *)
Definition fmt (x : json) : string :=
  PyVal.str (float_str rt) (str_repr rt) x.

(** The body of the loop of [main], for one event. *)
Definition handle (team : string) (ev : json) : Py unit :=
  t <- lift (PyVal.get ev "type" (JStr "")) ;;
  gs <- lift (PyVal.get ev "game_state" (JObj [])) ;;
  msg <- lift (PyVal.get ev "message" (JStr "")) ;;
  is_bet <- lift (PyVal.and_then (PyVal.eq_str t "bet")
                    (PyVal.str_in team msg)) ;;
  if is_bet : bool then
    rnd <- lift (PyVal.get gs "round" (JStr "")) ;;
    st <- lift (street_from_state gs) ;;
    m <- lift (re_search amount_pattern msg) ;;
    let amt := amount_of m in
    act <- lift (action_of msg amt) ;;
    pot <- lift (PyVal.get gs "pot" (JStr "")) ;;
    buyin <- lift (PyVal.get gs "current_buy_in" (JStr "")) ;;
    print (join tab [fmt rnd; st; act; amt; fmt pot; fmt buyin; fmt msg])
  else
    is_win <- lift (PyVal.and_then (PyVal.eq_str t "winner_announcement")
                      (PyVal.str_in team msg)) ;;
    if is_win : bool then
      rnd <- lift (PyVal.get gs "round" (JStr "")) ;;
      st <- lift (street_from_state gs) ;;
      pot <- lift (PyVal.get gs "pot" (JStr "")) ;;
      buyin <- lift (PyVal.get gs "current_buy_in" (JStr "")) ;;
      print (join tab [fmt rnd; st; "won"; ""; fmt pot; fmt buyin; fmt msg])
    else ret tt.

(** [[json.loads(line) for line in lines]] *)
Fixpoint decode_lines (lines : list string) : option (list json) :=
  match lines with
  | line :: rest =>
      match loads rt line with
      | Some v =>
          match decode_lines rest with
          | Some vs => Some (v :: vs)
          | None => None
          end
      | None => None
      end
  | [] => Some []
  end.

(** The lines a line-by-line decoding keeps: [if line.strip()]. *)
Definition nonblank (line : string) : bool := negb (is_empty (strip line)).

(** The [try] statement of [main]: the whole text as one value, or else
    one value per line that is not blank. *)
Definition read_events (data : string) : res json :=
  match loads rt data with
  | Some events => Ok events
  | None =>
      match decode_lines (filter nonblank (splitlines data)) with
      | Some events => Ok (JArr events)
      | None => Raise JSONDecodeError
      end
  end.

Definition main (argv : list string) (stdin : string) : Py unit :=
  let team :=
    if Nat.ltb 1 (List.length argv) then nth 1 argv "" else default_team in
  let data := strip stdin in
  events <- lift (read_events data) ;;
  print header ;;
  evs <- lift (PyVal.iterate events) ;;
  for_each evs (handle team).

End Program.

(** A run of the program: what it wrote and how it ended. *)
Definition run (c : Py unit) : string * res unit := c "".

(** The exit status of the process. *)
Definition exit_status (r : res unit) : nat :=
  match r with
  | Ok _ => 0
  | Raise _ => 1
  end.

(** The text of the output, line by line. *)
Fixpoint lines_text (lines : list string) : string :=
  match lines with
  | line :: rest => line +:+ nl +:+ lines_text rest
  | [] => ""
  end.

(** The end-to-end example of the specification. *)
Example main_example :
  run (main model_runtime ["summarize_logs.py"; "The Real Donkey Killers"]
         (quoted "[{'type':'bet','message':'The Real Donkey Killers: bet of 40 (raise)','game_state':{'round':3,'community_cards':[],'pot':100,'current_buy_in':40}}]"))
  = (lines_text
       [header;
        join tab ["3"; "PRE"; "raise"; "40"; "100"; "40";
                  "The Real Donkey Killers: bet of 40 (raise)"]],
     Ok tt).
Proof. reflexivity. Qed.

(** ** The data model of the specification

    An event is a record whose [message], when present, is a string and
    whose [game_state], when present, is a record whose
    [community_cards], when present, is a sequence. *)

(** The field [k] of a record, or [default] when it is absent. *)
Definition field (k : string) (default x : json) : json :=
  match x with
  | JObj fields =>
      match PyVal.lookup k fields with
      | Some v => v
      | None => default
      end
  | _ => default
  end.

Definition is_record (x : json) : bool :=
  match x with JObj _ => true | _ => false end.

Definition is_string (x : json) : bool :=
  match x with JStr _ => true | _ => false end.

Definition is_sequence (x : json) : bool :=
  match x with JArr _ | JStr _ => true | _ => false end.

Definition is_game_state (x : json) : bool :=
  is_record x && is_sequence (field "community_cards" (JArr []) x).

Definition is_event (x : json) : bool :=
  is_record x
  && is_string (field "message" (JStr "") x)
  && is_game_state (field "game_state" (JObj []) x).

Definition event_type (ev : json) : json := field "type" (JStr "") ev.
Definition event_state (ev : json) : json := field "game_state" (JObj []) ev.

(** The message of an event, as text. *)
Definition event_message (ev : json) : string :=
  match field "message" (JStr "") ev with
  | JStr s => s
  | _ => ""
  end.

(** The number of community cards of a game state. *)
Definition cards_count (gs : json) : nat :=
  match field "community_cards" (JArr []) gs with
  | JArr items => List.length items
  | JStr s => String.length s
  | _ => 0
  end.

(** The street of the specification: the named ones, and the length in
    decimal for any other length. *)
Definition street_name (n : nat) : string :=
  match n with
  | 0 => "PRE"
  | 3 => "FLOP"
  | 4 => "TURN"
  | 5 => "RIVER"
  | _ => str_nat n
  end.

(** The two kinds of event that the specification reports. *)
Definition is_bet (team : string) (ev : json) : bool :=
  PyVal.eq_str (event_type ev) "bet" && contains (event_message ev) team.

Definition is_win (team : string) (ev : json) : bool :=
  PyVal.eq_str (event_type ev) "winner_announcement"
  && contains (event_message ev) team.

Definition relevant (team : string) (ev : json) : bool :=
  is_bet team ev || is_win team ev.

(** The amount of a bet, read from the text of its message. *)
Definition bet_amount (msg : string) : string :=
  amount_of (Re.search amount_pattern msg).

(** The action of the specification: an ordered list of rules, of which
    the first one that applies decides. *)
Definition action_rules (msg amt : string) : list (bool * string) :=
  [(contains msg "(call)", "call");
   (contains msg "(raise)", "raise");
   (contains msg "(check)", "check");
   (negb (String.eqb amt "0"), "bet");
   (contains msg "(fold)", "fold")].

Fixpoint first_match (rules : list (bool * string)) (otherwise : string)
  : string :=
  match rules with
  | (true, a) :: _ => a
  | (false, _) :: rest => first_match rest otherwise
  | [] => otherwise
  end.

Definition spec_action (msg amt : string) : string :=
  first_match (action_rules msg amt) "?".

(** The team the program works for. *)
Definition team_of (argv : list string) : string :=
  match argv with
  | _ :: team :: _ => team
  | _ => default_team
  end.

Section Rows.
Variable rt : runtime.

(** The row of a bet and the row of a winner announcement. *)
Definition bet_row (ev : json) : string :=
  let gs := event_state ev in
  let msg := event_message ev in
  join tab [fmt rt (field "round" (JStr "") gs);
            street_name (cards_count gs);
            spec_action msg (bet_amount msg);
            bet_amount msg;
            fmt rt (field "pot" (JStr "") gs);
            fmt rt (field "current_buy_in" (JStr "") gs);
            msg].

Definition win_row (ev : json) : string :=
  let gs := event_state ev in
  join tab [fmt rt (field "round" (JStr "") gs);
            street_name (cards_count gs);
            "won";
            "";
            fmt rt (field "pot" (JStr "") gs);
            fmt rt (field "current_buy_in" (JStr "") gs);
            event_message ev].

Definition row_of (team : string) (ev : json) : string :=
  if is_bet team ev then bet_row ev else win_row ev.

(** What one event adds to the output: its row, or nothing. *)
Definition emitted (team : string) (ev : json) : list string :=
  if relevant team ev then [row_of team ev] else [].

(** The rows of a sequence of events, in the order of the events. *)
Definition rows_of (team : string) (evs : list json) : list string :=
  map (row_of team) (filter (relevant team) evs).
End Rows.

(** [sel] keeps some of the items of [l], in their order. *)
Inductive subsequence {A : Type} : list A -> list A -> Prop :=
| subsequence_nil : subsequence [] []
| subsequence_skip x sel l : subsequence sel l -> subsequence sel (x :: l)
| subsequence_keep x sel l : subsequence sel l -> subsequence (x :: sel) (x :: l).

(** The lines of the output after the first one, counted by their line
    feeds. *)
Definition data_lines (out : string) : nat :=
  count_char "010"%char out - 1.

(** The values that have neither a length nor items: [None], booleans
    and numbers. *)
Definition is_scalar (x : json) : bool :=
  match x with
  | JNull | JBool _ | JInt _ | JFloat _ => true
  | _ => false
  end.

(** A statement that writes only as its last step: it appends to the
    output, in the same way whatever was written before, and writes
    nothing when it raises. *)
Definition writes_last {A : Type} (c : Py A) : Prop :=
  (forall out, c out = (out +:+ fst (c ""), snd (c "")))
  /\ (forall e, snd (c "") = Raise e -> fst (c "") = "").

(** Shapes of an input text written one record per line: a line holds
    no line boundary, the first line starts and the last line ends with
    a character that is no white space. *)
Definition no_break (line : string) : bool :=
  all_chars (fun c => negb (is_linebreak c)) line.

Definition starts_clean (line : string) : bool :=
  match line with
  | String c _ => negb (is_space c)
  | "" => false
  end.

Fixpoint ends_clean (line : string) : bool :=
  match line with
  | "" => false
  | String c rest =>
      match rest with
      | "" => negb (is_space c)
      | String _ _ => ends_clean rest
      end
  end.

(** [s.split(c)] for a separator of one character: the fields of [s]
    between the occurrences of [c]. *)
Fixpoint split (c : ascii) (s : string) : list string :=
  match s with
  | "" => [""]
  | String d s' =>
      if Ascii.eqb c d then "" :: split c s'
      else match split c s' with
           | x :: xs => String d x :: xs
           | [] => [String d ""]
           end
  end.

(** * Properties *)

(** ** Strings *)

Lemma append_nil_r (s : string) : s +:+ "" = s.
Proof. induction s as [|c s IH]; simpl; [reflexivity | now rewrite IH]. Qed.

Lemma append_assoc (a b c : string) : (a +:+ b) +:+ c = a +:+ (b +:+ c).
Proof. induction a as [|x a IH]; simpl; [reflexivity | now rewrite IH]. Qed.

Lemma count_char_append (c : ascii) (a b : string) :
  count_char c (a +:+ b) = count_char c a + count_char c b.
Proof.
  induction a as [|x a IH]; simpl; [reflexivity |].
  rewrite IH. lia.
Qed.

Lemma lines_text_cons (line : string) (lines : list string) :
  lines_text (line :: lines) = line +:+ nl +:+ lines_text lines.
Proof. reflexivity. Qed.

Lemma lines_text_app (xs ys : list string) :
  lines_text (xs ++ ys) = lines_text xs +:+ lines_text ys.
Proof.
  induction xs as [|x xs IH]; [reflexivity |].
  simpl. rewrite IH, !append_assoc. reflexivity.
Qed.

(** ** Expressions on events of the data model *)

Lemma get_record (x : json) (k : string) (d : json) :
  is_record x = true -> PyVal.get x k d = Ok (field k d x).
Proof. destruct x; simpl; intros H; try discriminate. reflexivity. Qed.

Lemma table_get_street (n : nat) :
  table_get [(0, "PRE"); (3, "FLOP"); (4, "TURN"); (5, "RIVER")] n (str_nat n)
  = street_name n.
Proof. do 6 (destruct n as [|n]; [reflexivity |]). reflexivity. Qed.

Lemma len_sequence (x : json) :
  is_sequence x = true ->
  PyVal.len x
  = Ok (match x with
        | JArr items => List.length items
        | JStr s => String.length s
        | _ => 0
        end).
Proof. destruct x; simpl; intros H; try discriminate; reflexivity. Qed.

Lemma street_of_game_state (gs : json) :
  is_game_state gs = true ->
  street_from_state gs = Ok (street_name (cards_count gs)).
Proof.
  unfold is_game_state, street_from_state, cards_count.
  intros H. apply andb_prop in H as [Hrec Hseq].
  rewrite (get_record _ _ _ Hrec). cbn [res_bind].
  rewrite (len_sequence _ Hseq). cbn [res_bind].
  now rewrite table_get_street.
Qed.

Lemma action_of_text (msg amt : string) :
  action_of (JStr msg) amt = Ok (spec_action msg amt).
Proof.
  unfold action_of, spec_action, action_rules. simpl.
  destruct (contains msg "(call)"); [reflexivity |].
  destruct (contains msg "(raise)"); [reflexivity |].
  destruct (contains msg "(check)"); [reflexivity |].
  destruct (negb (String.eqb amt "0")); [reflexivity |].
  destruct (contains msg "(fold)"); reflexivity.
Qed.

(** ** Statements *)

Lemma bind_ok {A B : Type} (a : A) (k : A -> Py B) (out : string) :
  bind (lift (Ok a)) k out = k a out.
Proof. reflexivity. Qed.

Lemma bind_raise {A B : Type} (e : exn) (k : A -> Py B) (out : string) :
  bind (lift (@Raise A e)) k out = (out, Raise e).
Proof. reflexivity. Qed.

Section HandleEvent.
Variable rt : runtime.
Variable team : string.

Lemma event_parts (ev : json) :
  is_event ev = true ->
  is_record ev = true
  /\ field "message" (JStr "") ev = JStr (event_message ev)
  /\ is_game_state (event_state ev) = true
  /\ is_record (event_state ev) = true.
Proof.
  unfold is_event, event_message, event_state. intros H.
  apply andb_prop in H as [H Hgs]. apply andb_prop in H as [Hrec Hmsg].
  repeat split; try assumption.
  - destruct (field "message" (JStr "") ev); try discriminate; reflexivity.
  - unfold is_game_state in Hgs. now apply andb_prop in Hgs as [Hgrec _].
Qed.

Lemma handle_bet (ev : json) (out : string) :
  is_event ev = true -> is_bet team ev = true ->
  handle rt team ev out = (out +:+ bet_row rt ev +:+ nl, Ok tt).
Proof.
  intros Hev Hbet.
  destruct (event_parts ev Hev) as (Hrec & Emsg & Hgs & Hgrec).
  unfold is_bet, event_type in Hbet. apply andb_prop in Hbet as [Ht Hm].
  unfold handle. rewrite !(get_record ev _ _ Hrec), !bind_ok.
  rewrite Emsg, Ht. cbn [PyVal.and_then PyVal.str_in]. rewrite Hm, bind_ok.
  cbv beta iota. fold (event_state ev).
  rewrite !(get_record _ _ _ Hgrec), bind_ok.
  rewrite (street_of_game_state _ Hgs), bind_ok.
  cbn [re_search]. rewrite bind_ok, action_of_text, !bind_ok.
  reflexivity.
Qed.

Lemma handle_win (ev : json) (out : string) :
  is_event ev = true -> is_bet team ev = false -> is_win team ev = true ->
  handle rt team ev out = (out +:+ win_row rt ev +:+ nl, Ok tt).
Proof.
  intros Hev Hbet Hwin.
  destruct (event_parts ev Hev) as (Hrec & Emsg & Hgs & Hgrec).
  unfold is_bet, event_type in Hbet.
  unfold is_win, event_type in Hwin. apply andb_prop in Hwin as [Ht Hm].
  rewrite Hm, andb_true_r in Hbet.
  unfold handle. rewrite !(get_record ev _ _ Hrec), !bind_ok.
  rewrite Emsg, Hbet, Ht. cbn [PyVal.and_then PyVal.str_in].
  rewrite bind_ok. cbv beta iota. rewrite Hm, bind_ok. cbv beta iota.
  fold (event_state ev).
  rewrite !(get_record _ _ _ Hgrec), bind_ok.
  rewrite (street_of_game_state _ Hgs), !bind_ok.
  reflexivity.
Qed.

Lemma handle_skip (ev : json) (out : string) :
  is_event ev = true -> relevant team ev = false ->
  handle rt team ev out = (out, Ok tt).
Proof.
  intros Hev Hrel.
  destruct (event_parts ev Hev) as (Hrec & Emsg & Hgs & Hgrec).
  unfold relevant in Hrel. apply orb_false_elim in Hrel as [Hbet Hwin].
  unfold is_bet, event_type in Hbet. unfold is_win, event_type in Hwin.
  unfold handle. rewrite !(get_record ev _ _ Hrec), !bind_ok.
  rewrite Emsg. cbn [PyVal.str_in].
  assert (E1 : PyVal.and_then (PyVal.eq_str (field "type" (JStr "") ev) "bet")
                 (Ok (contains (event_message ev) team)) = Ok false).
  { destruct (PyVal.eq_str (field "type" (JStr "") ev) "bet");
      cbn [PyVal.and_then]; [now rewrite <- Hbet | reflexivity]. }
  assert (E2 : PyVal.and_then
                 (PyVal.eq_str (field "type" (JStr "") ev) "winner_announcement")
                 (Ok (contains (event_message ev) team)) = Ok false).
  { destruct (PyVal.eq_str (field "type" (JStr "") ev) "winner_announcement");
      cbn [PyVal.and_then]; [now rewrite <- Hwin | reflexivity]. }
  rewrite E1, bind_ok. cbv beta iota. rewrite E2, bind_ok. reflexivity.
Qed.

Lemma handle_event (ev : json) (out : string) :
  is_event ev = true ->
  handle rt team ev out = (out +:+ lines_text (emitted rt team ev), Ok tt).
Proof.
  intros Hev. unfold emitted, row_of.
  destruct (relevant team ev) eqn:Hrel.
  - cbn [lines_text]. rewrite append_nil_r.
    destruct (is_bet team ev) eqn:Hbet.
    + now apply handle_bet.
    + apply handle_win; try assumption.
      unfold relevant in Hrel. now rewrite Hbet in Hrel.
  - cbn [lines_text]. rewrite append_nil_r. now apply handle_skip.
Qed.

Lemma for_each_events (evs : list json) (out : string) :
  Forall (fun ev => is_event ev = true) evs ->
  for_each evs (handle rt team) out
  = (out +:+ lines_text (rows_of rt team evs), Ok tt).
Proof.
  intros H. revert out.
  induction H as [|ev evs Hev _ IH]; intros out.
  - cbn. now rewrite append_nil_r.
  - cbn [for_each]. unfold bind at 1. rewrite (handle_event ev out Hev).
    rewrite IH, append_assoc. unfold rows_of, emitted. cbn [filter].
    destruct (relevant team ev); cbn [map lines_text append];
      now rewrite ?append_assoc.
Qed.

End HandleEvent.

(** ** The whole pass *)

Lemma main_team (argv : list string) :
  (if Nat.ltb 1 (List.length argv) then nth 1 argv "" else default_team)
  = team_of argv.
Proof. destruct argv as [|a [|b rest]]; reflexivity. Qed.

Lemma main_unfold (rt : runtime) (argv : list string) (stdin : string) :
  run (main rt argv stdin)
  = match read_events rt (strip stdin) with
    | Ok events =>
        match PyVal.iterate events with
        | Ok evs => for_each evs (handle rt (team_of argv)) (header +:+ nl)
        | Raise e => (header +:+ nl, Raise e)
        end
    | Raise e => ("", Raise e)
    end.
Proof.
  unfold run, main. rewrite main_team.
  destruct (read_events rt (strip stdin)) as [events|e]; [|reflexivity].
  rewrite bind_ok. unfold bind at 1. cbn [print append].
  destruct (PyVal.iterate events) as [evs|e]; reflexivity.
Qed.

Lemma main_events (rt : runtime) (argv : list string) (stdin : string)
  (evs : list json) :
  read_events rt (strip stdin) = Ok (JArr evs) ->
  Forall (fun ev => is_event ev = true) evs ->
  run (main rt argv stdin)
  = (lines_text (header :: rows_of rt (team_of argv) evs), Ok tt).
Proof.
  intros Hread Hevs. rewrite main_unfold, Hread. cbn [PyVal.iterate].
  rewrite (for_each_events rt (team_of argv) evs _ Hevs).
  cbn [lines_text]. now rewrite append_assoc.
Qed.

Lemma eq_str_inv (x : json) (s : string) :
  PyVal.eq_str x s = true -> x = JStr s.
Proof.
  destruct x; simpl; try discriminate.
  intros H. apply String.eqb_eq in H. now subst.
Qed.

Lemma bet_or_win (team : string) (ev : json) :
  is_bet team ev = true -> is_win team ev = false.
Proof.
  unfold is_bet, is_win. intros H. apply andb_prop in H as [Ht _].
  apply eq_str_inv in Ht. now rewrite Ht.
Qed.

Lemma relevant_count (team : string) (evs : list json) :
  List.length (filter (relevant team) evs)
  = List.length (filter (is_bet team) evs)
    + List.length (filter (is_win team) evs).
Proof.
  induction evs as [|ev evs IH]; [reflexivity |].
  cbn [filter]. unfold relevant at 1.
  destruct (is_bet team ev) eqn:Hbet.
  - rewrite (bet_or_win _ _ Hbet). cbn. now rewrite IH.
  - destruct (is_win team ev); cbn; rewrite IH; lia.
Qed.

Lemma filter_subsequence {A : Type} (p : A -> bool) (l : list A) :
  subsequence (filter p l) l.
Proof.
  induction l as [|x l IH]; cbn.
  - constructor.
  - destruct (p x); now constructor.
Qed.

Lemma subsequence_length {A : Type} (sel l : list A) :
  subsequence sel l -> List.length sel <= List.length l.
Proof. induction 1; cbn; lia. Qed.

Lemma count_lines (c : ascii) (lines : list string) :
  c = "010"%char ->
  Forall (fun line => count_char c line = 0) lines ->
  count_char c (lines_text lines) = List.length lines.
Proof.
  intros -> H. induction H as [|line lines Hline _ IH]; [reflexivity |].
  cbn [lines_text List.length].
  rewrite !count_char_append, Hline, IH. reflexivity.
Qed.

(** ** The rows of the table *)

(** C1 (amended).  For events of the data model and every team name,
    the program writes the header and then one row, ended by a line
    feed, for each event whose type is bet or winner_announcement and
    whose message contains the team name: the number of rows is the
    number of such bets plus the number of such announcements, and any
    other event leaves the output as it is.  The number of output lines
    after the header is that number when no row contains a line feed. *)
Theorem rows_per_relevant_event (rt : runtime) (argv : list string)
  (stdin : string) (evs : list json) :
  read_events rt (strip stdin) = Ok (JArr evs) ->
  Forall (fun ev => is_event ev = true) evs ->
  let team := team_of argv in
  let rows := rows_of rt team evs in
  let relevant_events :=
    List.length (filter (is_bet team) evs)
    + List.length (filter (is_win team) evs) in
  run (main rt argv stdin) = (lines_text (header :: rows), Ok tt)
  /\ List.length rows = relevant_events
  /\ (forall ev out, In ev evs -> relevant team ev = false ->
      handle rt team ev out = (out, Ok tt))
  /\ (Forall (fun row => count_char "010"%char row = 0) rows ->
      data_lines (fst (run (main rt argv stdin))) = relevant_events).
Proof.
  intros Hread Hevs team rows relevant_events.
  assert (Hlen : List.length rows = relevant_events).
  { unfold rows, rows_of. rewrite length_map. apply relevant_count. }
  rewrite (main_events rt argv stdin evs Hread Hevs). fold team rows.
  repeat split.
  - exact Hlen.
  - intros ev out Hin Hrel. apply handle_skip; [|exact Hrel].
    rewrite Forall_forall in Hevs. now apply Hevs.
  - intros Hrows. unfold data_lines. cbn [fst lines_text].
    rewrite !count_char_append.
    rewrite (count_lines _ rows eq_refl Hrows), Hlen.
    change (count_char "010"%char header) with 0. cbn. lia.
Qed.

Lemma rows_per_relevant_event_witness :
  let argv := ["summarize_logs.py"; "T"] in
  let stdin :=
    quoted "[{'type':'bet','message':'T: bet of 40 (raise)'},{'type':'deal'},{'type':'winner_announcement','message':'T wins','game_state':{'community_cards':[1,2,3,4,5],'pot':250}}]" in
  run (main model_runtime argv stdin)
  = (lines_text
       [header;
        join tab [""; "PRE"; "raise"; "40"; ""; ""; "T: bet of 40 (raise)"];
        join tab [""; "RIVER"; "won"; ""; "250"; ""; "T wins"]],
     Ok tt)
  /\ data_lines (fst (run (main model_runtime argv stdin))) = 2.
Proof.
  intros argv stdin.
  pose (evs :=
    [JObj [("type", JStr "bet"); ("message", JStr "T: bet of 40 (raise)")];
     JObj [("type", JStr "deal")];
     JObj [("type", JStr "winner_announcement"); ("message", JStr "T wins");
           ("game_state",
             JObj [("community_cards",
                     JArr [JInt 1; JInt 2; JInt 3; JInt 4; JInt 5]);
                   ("pot", JInt 250)])]]).
  assert (Hread : read_events model_runtime (strip stdin) = Ok (JArr evs))
    by reflexivity.
  assert (Hevs : Forall (fun ev => is_event ev = true) evs)
    by (repeat constructor).
  destruct (rows_per_relevant_event model_runtime argv stdin evs Hread Hevs)
    as (Hrun & _ & _ & Hlines).
  split.
  - exact Hrun.
  - apply Hlines. repeat constructor.
Defined.

(** The claim as first stated fails when a message holds a line feed:
    one bet is reported on two lines of the output. *)
Lemma line_count_counterexample :
  let argv := ["summarize_logs.py"; "T"] in
  let stdin := quoted "[{'type':'bet','message':'T\nx'}]" in
  let evs :=
    [JObj [("type", JStr "bet"); ("message", JStr ("T" +:+ nl +:+ "x"))]] in
  read_events model_runtime (strip stdin) = Ok (JArr evs)
  /\ Forall (fun ev => is_event ev = true) evs
  /\ List.length (filter (is_bet "T") evs)
     + List.length (filter (is_win "T") evs) = 1
  /\ data_lines (fst (run (main model_runtime argv stdin))) = 2.
Proof. repeat split; repeat constructor. Qed.

(** C7.  For events of the data model, the output is the header, once
    and first, followed by the rows of a subsequence of the events in
    their original order: one row for each selected event, and at most
    one row for an event. *)
Theorem rows_follow_events (rt : runtime) (argv : list string)
  (stdin : string) (evs : list json) :
  read_events rt (strip stdin) = Ok (JArr evs) ->
  Forall (fun ev => is_event ev = true) evs ->
  let team := team_of argv in
  exists sel : list json,
    subsequence sel evs
    /\ sel = filter (relevant team) evs
    /\ run (main rt argv stdin)
       = (lines_text (header :: map (row_of rt team) sel), Ok tt)
    /\ (forall ev out, In ev evs ->
        exists rows, handle rt team ev out = (out +:+ lines_text rows, Ok tt)
                     /\ List.length rows <= 1).
Proof.
  intros Hread Hevs team. exists (filter (relevant team) evs).
  repeat split.
  - apply filter_subsequence.
  - apply (main_events rt argv stdin evs Hread Hevs).
  - intros ev out Hin. exists (emitted rt team ev). split.
    + apply handle_event. rewrite Forall_forall in Hevs. now apply Hevs.
    + unfold emitted. destruct (relevant team ev); cbn; lia.
Qed.

Lemma rows_follow_events_witness :
  let argv := ["summarize_logs.py"; "T"] in
  let stdin :=
    quoted "[{'type':'winner_announcement','message':'T wins'},{'type':'deal'},{'type':'bet','message':'T: bet of 0 (fold)'},{'type':'bet','message':'T: bet of 0 (fold)'}]" in
  let win := JObj [("type", JStr "winner_announcement");
                   ("message", JStr "T wins")] in
  let deal := JObj [("type", JStr "deal")] in
  let fold := JObj [("type", JStr "bet");
                    ("message", JStr "T: bet of 0 (fold)")] in
  exists sel : list json,
    subsequence sel [win; deal; fold; fold]
    /\ sel = [win; fold; fold]
    /\ run (main model_runtime argv stdin)
       = (lines_text (header :: map (row_of model_runtime "T") sel), Ok tt).
Proof.
  intros argv stdin win deal fold.
  assert (Hread : read_events model_runtime (strip stdin)
                  = Ok (JArr [win; deal; fold; fold])) by reflexivity.
  assert (Hevs : Forall (fun ev => is_event ev = true) [win; deal; fold; fold])
    by (repeat constructor).
  destruct (rows_follow_events model_runtime argv stdin _ Hread Hevs)
    as (sel & Hsub & Hsel & Hrun & _).
  exists sel. repeat split; assumption.
Defined.

(** ** The amount pattern *)

Lemma length_append (a b : string) :
  String.length (a +:+ b) = String.length a + String.length b.
Proof. induction a as [|c a IH]; cbn; [reflexivity | now rewrite IH]. Qed.

Lemma substring_prefix (a b : string) :
  substring 0 (String.length a) (a +:+ b) = a.
Proof.
  induction a as [|c a IH]; cbn.
  - now destruct b.
  - now rewrite IH.
Qed.

Lemma consumed_append (a b : string) : Re.consumed (a +:+ b) b = a.
Proof.
  unfold Re.consumed. rewrite length_append, Nat.add_sub.
  apply substring_prefix.
Qed.

Lemma lit_inv (s text rest : string) :
  Re.lit s text = Some rest -> text = s +:+ rest.
Proof.
  revert text. induction s as [|c s IH]; intros text H; cbn in *.
  - now inversion H.
  - destruct text as [|d text]; [discriminate |].
    destruct (Ascii.eqb_spec c d) as [->|]; [|discriminate].
    now rewrite (IH _ H).
Qed.

Lemma span_append (p : ascii -> bool) (s : string) :
  fst (span p s) +:+ snd (span p s) = s.
Proof.
  induction s as [|c s IH]; cbn; [reflexivity |].
  destruct (p c); [|reflexivity].
  destruct (span p s) as [a b]. cbn in *. now rewrite IH.
Qed.

Lemma span_all (p : ascii -> bool) (s : string) :
  all_chars p (fst (span p s)) = true.
Proof.
  induction s as [|c s IH]; cbn; [reflexivity |].
  destruct (p c) eqn:E; [|reflexivity].
  destruct (span p s) as [a b]. cbn in *. now rewrite E.
Qed.

Lemma span_none (p : ascii -> bool) (s : string) :
  is_empty (fst (span p s)) = true -> snd (span p s) = s.
Proof.
  destruct s as [|c s]; cbn; [reflexivity |].
  destruct (p c); [|reflexivity].
  destruct (span p s). discriminate.
Qed.

(** A greedy repetition whose continuation accepts every rest takes
    the longest run. *)
Lemma plus_longest {A : Type} (p : ascii -> bool) (f : string -> A)
  (text : string) :
  Re.plus p text (fun rest => Some (f rest))
  = if is_empty (fst (span p text)) then None
    else Some (f (snd (span p text))).
Proof.
  induction text as [|c text IH]; cbn; [reflexivity |].
  destruct (p c); [|reflexivity].
  rewrite IH. pose proof (span_none p text) as Hnone.
  destruct (span p text) as [a b]. cbn in *.
  destruct (is_empty a); [|reflexivity].
  now rewrite Hnone.
Qed.

Lemma match_first (text : string) :
  Re.match_at first_alternative text
  = match Re.lit "bet of " text with
    | Some rest =>
        if is_empty (fst (span is_digit rest)) then None
        else Some [(1, fst (span is_digit rest))]
    | None => None
    end.
Proof.
  unfold Re.match_at, first_alternative. cbn [Re.run].
  destruct (Re.lit "bet of " text) as [rest|]; [|reflexivity].
  etransitivity;
    [exact (plus_longest is_digit (fun r => [(1, Re.consumed rest r)]) rest) |].
  destruct (is_empty (fst (span is_digit rest))); [reflexivity |].
  rewrite <- (span_append is_digit rest) at 1.
  now rewrite consumed_append.
Qed.

Lemma match_second_prefix (text : string) :
  Re.lit "bet of 0 (" text = None ->
  Re.match_at second_alternative text = None.
Proof.
  intros H. unfold Re.match_at, second_alternative. cbn [Re.run].
  now rewrite H.
Qed.

(** Where the second alternative matches, the first one does, with the
    amount 0. *)
Lemma second_implies_first (text : string) (g : Re.groups) :
  Re.match_at second_alternative text = Some g ->
  Re.match_at first_alternative text = Some [(1, "0")].
Proof.
  intros H.
  destruct (Re.lit "bet of 0 (" text) as [rest|] eqn:E.
  - apply lit_inv in E. subst text. rewrite match_first. reflexivity.
  - rewrite (match_second_prefix _ E) in H. discriminate.
Qed.

Lemma match_amount (text : string) :
  Re.match_at amount_pattern text = Re.match_at first_alternative text.
Proof.
  unfold Re.match_at at 1. unfold amount_pattern. cbn [Re.run].
  fold (Re.match_at first_alternative text).
  fold (Re.match_at second_alternative text).
  destruct (Re.match_at first_alternative text) as [g|] eqn:E1; [reflexivity |].
  destruct (Re.match_at second_alternative text) as [g|] eqn:E2; [|reflexivity].
  apply second_implies_first in E2. congruence.
Qed.

Lemma match_first_group (text : string) (g : Re.groups) :
  Re.match_at first_alternative text = Some g ->
  exists digits,
    g = [(1, digits)]
    /\ is_empty digits = false /\ all_chars is_digit digits = true.
Proof.
  rewrite match_first.
  destruct (Re.lit "bet of " text) as [rest|]; [|discriminate].
  destruct (is_empty (fst (span is_digit rest))) eqn:E; [discriminate |].
  intros H. inversion H. eexists. repeat split.
  - exact E.
  - apply span_all.
Qed.

Lemma search_match (r : Re.regex) (text : string) (g : Re.groups) :
  Re.search r text = Some g ->
  exists before at_, text = before +:+ at_ /\ Re.match_at r at_ = Some g.
Proof.
  induction text as [|c text IH]; cbn.
  - destruct (Re.match_at r "") eqn:E; [|discriminate].
    intros H. inversion H. subst. exists "", "". now split.
  - destruct (Re.match_at r (String c text)) eqn:E.
    + intros H. inversion H. subst. exists "", (String c text). now split.
    + intros H. destruct (IH H) as (before & at_ & -> & Hm).
      exists (String c before), at_. now split.
Qed.

Lemma search_amount_group (msg : string) (g : Re.groups) :
  Re.search amount_pattern msg = Some g ->
  exists digits,
    g = [(1, digits)]
    /\ is_empty digits = false /\ all_chars is_digit digits = true.
Proof.
  intros H. apply search_match in H as (before & at_ & _ & Hm).
  rewrite match_amount in Hm. now apply match_first_group in Hm.
Qed.

(** C9.  The amount of a bet row is a nonempty string of decimal
    digits.  Whenever the pattern matches a message its first group is
    present and is the amount, and the second group is not; wherever
    the second alternative matches, the first one matches too; and
    when the pattern does not match, the amount is 0. *)
Theorem amount_is_digits (msg : string) :
  let amt := bet_amount msg in
  (is_empty amt = false /\ all_chars is_digit amt = true)
  /\ (forall g, Re.search amount_pattern msg = Some g ->
      Re.group 1 g = Some amt /\ Re.group 2 g = None)
  /\ (forall text g, Re.match_at second_alternative text = Some g ->
      exists g', Re.match_at first_alternative text = Some g')
  /\ (Re.search amount_pattern msg = None -> amt = "0")
  /\ (forall rt team ev out,
      is_event ev = true -> is_bet team ev = true -> event_message ev = msg ->
      exists rnd st act pot buyin,
        handle rt team ev out
        = (out +:+ join tab [rnd; st; act; amt; pot; buyin; msg] +:+ nl, Ok tt)).
Proof.
  intros amt. unfold amt, bet_amount.
  split; [|split; [|split; [|split]]].
  - destruct (Re.search amount_pattern msg) as [g|] eqn:E; [|now split].
    destruct (search_amount_group _ _ E) as (d & -> & Hne & Hall).
    cbn. rewrite Hne. now split.
  - intros g E. rewrite E.
    destruct (search_amount_group _ _ E) as (d & -> & Hne & Hall).
    cbn. rewrite Hne. now split.
  - intros text g H. eexists. exact (second_implies_first _ _ H).
  - intros E. now rewrite E.
  - intros rt team ev out Hev Hbet Hmsg.
    do 5 eexists. rewrite (handle_bet rt team ev out Hev Hbet).
    unfold bet_row, bet_amount. rewrite Hmsg. reflexivity.
Qed.

(** ** The street *)

Lemma to_uint_nonnil (n : nat) : Nat.to_uint n <> Decimal.Nil.
Proof.
  intros H. pose proof (DecimalNat.Unsigned.to_of (Nat.to_uint n)) as E.
  rewrite DecimalNat.Unsigned.of_to, H in E. discriminate.
Qed.

(** [str_nat n] is the decimal numeral of [n]. *)
Lemma str_nat_decimal (n : nat) :
  option_map Nat.of_uint (NilZero.uint_of_string (str_nat n)) = Some n.
Proof.
  unfold str_nat. rewrite (NilZero.usu _ (to_uint_nonnil n)). cbn.
  now rewrite DecimalNat.Unsigned.of_to.
Qed.

Lemma street_name_other (n : nat) :
  n <> 0 -> n <> 3 -> n <> 4 -> n <> 5 -> street_name n = str_nat n.
Proof.
  intros H0 H3 H4 H5.
  do 6 (destruct n as [|n]; [congruence || reflexivity |]). reflexivity.
Qed.

(** C2.  On a record whose community_cards field is absent or is a
    sequence, street_from_state returns a result and raises nothing:
    PRE for the length 0, which is the length of an absent field, FLOP
    for 3, TURN for 4, RIVER for 5, and for any other length the
    decimal numeral of the length. *)
Theorem street_from_state_total (fields : list (string * json)) :
  (PyVal.lookup "community_cards" fields = None
   \/ exists cc, PyVal.lookup "community_cards" fields = Some cc
                 /\ is_sequence cc = true) ->
  let n := cards_count (JObj fields) in
  exists street,
    street_from_state (JObj fields) = Ok street
    /\ (PyVal.lookup "community_cards" fields = None -> n = 0)
    /\ (n = 0 -> street = "PRE")
    /\ (n = 3 -> street = "FLOP")
    /\ (n = 4 -> street = "TURN")
    /\ (n = 5 -> street = "RIVER")
    /\ (n <> 0 -> n <> 3 -> n <> 4 -> n <> 5 ->
        street = str_nat n
        /\ option_map Nat.of_uint (NilZero.uint_of_string street) = Some n).
Proof.
  intros H n. exists (street_name n). split.
  - apply street_of_game_state. unfold is_game_state, field. cbn [is_record andb].
    destruct H as [-> | (cc & -> & Hcc)]; [reflexivity | exact Hcc].
  - split; [|repeat split; try (intros ->; reflexivity)].
    + intros Habs. unfold n, cards_count, field. now rewrite Habs.
    + now apply street_name_other.
    + rewrite street_name_other by assumption. apply str_nat_decimal.
Qed.

Lemma street_from_state_total_witness :
  street_from_state (JObj [("round", JInt 3)]) = Ok "PRE"
  /\ street_from_state
       (JObj [("community_cards", JArr [JStr "2H"; JStr "3D"; JStr "KS"])])
     = Ok "FLOP"
  /\ street_from_state
       (JObj [("community_cards",
                JArr [JInt 1; JInt 2; JInt 3; JInt 4; JInt 5; JInt 6; JInt 7;
                      JInt 8; JInt 9; JInt 10; JInt 11; JInt 12])])
     = Ok "12".
Proof.
  split; [|split].
  - destruct (street_from_state_total [("round", JInt 3)]) as (s & Hs & _ & H0 & _).
    + left. reflexivity.
    + now rewrite Hs, (H0 eq_refl).
  - destruct (street_from_state_total
                [("community_cards", JArr [JStr "2H"; JStr "3D"; JStr "KS"])])
      as (s & Hs & _ & _ & H3 & _).
    + right. eexists. split; reflexivity.
    + now rewrite Hs, (H3 eq_refl).
  - destruct (street_from_state_total
                [("community_cards",
                   JArr [JInt 1; JInt 2; JInt 3; JInt 4; JInt 5; JInt 6; JInt 7;
                         JInt 8; JInt 9; JInt 10; JInt 11; JInt 12])])
      as (s & Hs & _ & _ & _ & _ & _ & Hother).
    + right. eexists. split; reflexivity.
    + rewrite Hs. destruct Hother as [-> _]; [cbn; lia ..|]. reflexivity.
Defined.

(** ** The two kinds of row *)

Lemma is_bet_intro (team : string) (ev : json) :
  event_type ev = JStr "bet" -> contains (event_message ev) team = true ->
  is_bet team ev = true.
Proof. unfold is_bet. now intros -> ->. Qed.

Lemma is_win_intro (team : string) (ev : json) :
  event_type ev = JStr "winner_announcement" ->
  contains (event_message ev) team = true ->
  is_bet team ev = false /\ is_win team ev = true.
Proof. unfold is_bet, is_win. now intros -> ->. Qed.

Lemma first_match_action (msg amt : string) :
  let act := spec_action msg amt in
  (contains msg "(call)" = true -> act = "call")
  /\ (contains msg "(call)" = false -> contains msg "(raise)" = true ->
      act = "raise")
  /\ (contains msg "(call)" = false -> contains msg "(raise)" = false ->
      contains msg "(check)" = true -> act = "check")
  /\ (contains msg "(call)" = false -> contains msg "(raise)" = false ->
      contains msg "(check)" = false -> amt <> "0" -> act = "bet")
  /\ (contains msg "(call)" = false -> contains msg "(raise)" = false ->
      contains msg "(check)" = false -> amt = "0" ->
      contains msg "(fold)" = true -> act = "fold")
  /\ (contains msg "(call)" = false -> contains msg "(raise)" = false ->
      contains msg "(check)" = false -> amt = "0" ->
      contains msg "(fold)" = false -> act = "?").
Proof.
  unfold spec_action, action_rules. cbn [first_match].
  repeat split.
  - now intros ->.
  - now intros -> ->.
  - now intros -> -> ->.
  - intros -> -> -> H. apply String.eqb_neq in H. now rewrite H.
  - intros -> -> -> -> ->. reflexivity.
  - intros -> -> -> -> ->. reflexivity.
Qed.

(** C3.  A bet whose message contains the team name is reported with
    the action that the ordered rules give: call if the message
    contains (call), else raise if it contains (raise), else check if
    it contains (check), else bet if the amount is not 0, else fold if
    it contains (fold), else a question mark.  A message with (call)
    and an amount other than 0 is a call. *)
Theorem bet_action_priority (rt : runtime) (team : string) (ev : json)
  (out : string) :
  is_event ev = true ->
  event_type ev = JStr "bet" ->
  contains (event_message ev) team = true ->
  let msg := event_message ev in
  let amt := bet_amount msg in
  let gs := event_state ev in
  exists act,
    handle rt team ev out
    = (out +:+ join tab [fmt rt (field "round" (JStr "") gs);
                         street_name (cards_count gs);
                         act; amt;
                         fmt rt (field "pot" (JStr "") gs);
                         fmt rt (field "current_buy_in" (JStr "") gs);
                         msg] +:+ nl,
       Ok tt)
    /\ act = first_match (action_rules msg amt) "?"
    /\ (contains msg "(call)" = true -> act = "call")
    /\ (contains msg "(call)" = false -> contains msg "(raise)" = true ->
        act = "raise")
    /\ (contains msg "(call)" = false -> contains msg "(raise)" = false ->
        contains msg "(check)" = true -> act = "check")
    /\ (contains msg "(call)" = false -> contains msg "(raise)" = false ->
        contains msg "(check)" = false -> amt <> "0" -> act = "bet")
    /\ (contains msg "(call)" = false -> contains msg "(raise)" = false ->
        contains msg "(check)" = false -> amt = "0" ->
        contains msg "(fold)" = true -> act = "fold")
    /\ (contains msg "(call)" = false -> contains msg "(raise)" = false ->
        contains msg "(check)" = false -> amt = "0" ->
        contains msg "(fold)" = false -> act = "?")
    /\ (contains msg "(call)" = true -> amt <> "0" -> act = "call").
Proof.
  intros Hev Ht Hm msg amt gs.
  exists (spec_action msg amt).
  split; [|split; [reflexivity |]].
  - now rewrite (handle_bet rt team ev out Hev (is_bet_intro team ev Ht Hm)).
  - pose proof (first_match_action msg amt) as H. cbv zeta in H.
    destruct H as (H1 & H2 & H3 & H4 & H5 & H6).
    repeat split; try assumption.
    intros Hc _. now apply H1.
Qed.

Lemma bet_action_priority_witness :
  let ev := JObj [("type", JStr "bet");
                  ("message", JStr "T: bet of 120 (call)");
                  ("game_state", JObj [("round", JInt 7); ("pot", JInt 300)])] in
  handle model_runtime "T" ev ""
  = (join tab ["7"; "PRE"; "call"; "120"; "300"; ""; "T: bet of 120 (call)"]
     +:+ nl, Ok tt).
Proof.
  intros ev.
  destruct (bet_action_priority model_runtime "T" ev "")
    as (act & Hrun & _ & _ & _ & _ & _ & _ & _ & Hcall);
    [reflexivity | reflexivity | reflexivity |].
  rewrite Hrun, Hcall; [reflexivity | reflexivity | discriminate].
Defined.


(** ** Reading the input *)

Lemma lstrip_spaces (s : string) :
  all_chars is_space s = true -> lstrip s = "".
Proof.
  induction s as [|c s IH]; cbn; [reflexivity |].
  intros H. apply andb_prop in H as [Hc Hs]. rewrite Hc. now apply IH.
Qed.

Lemma strip_spaces (s : string) : all_chars is_space s = true -> strip s = "".
Proof. intros H. unfold strip. now rewrite (lstrip_spaces s H). Qed.

Lemma decode_lines_failure (rt : runtime) (lines : list string) (line : string) :
  In line lines -> loads rt line = None -> decode_lines rt lines = None.
Proof.
  intros Hin Hline. induction lines as [|l lines IH]; [contradiction |].
  cbn [decode_lines]. destruct Hin as [-> | Hin].
  - now rewrite Hline.
  - destruct (loads rt l); [|reflexivity]. now rewrite (IH Hin).
Qed.

(** C8.  When the input is empty or holds white space only, and the
    decoder refuses the empty text, the stripped input is empty, the
    line-by-line decoding gives no event, and the program prints the
    header alone and ends with status 0. *)
Theorem blank_input_prints_header (rt : runtime) (argv : list string)
  (stdin : string) :
  loads rt "" = None ->
  all_chars is_space stdin = true ->
  strip stdin = ""
  /\ read_events rt (strip stdin) = Ok (JArr [])
  /\ run (main rt argv stdin) = (header +:+ nl, Ok tt)
  /\ exit_status (snd (run (main rt argv stdin))) = 0.
Proof.
  intros Hempty Hblank.
  assert (Hread : read_events rt (strip stdin) = Ok (JArr [])).
  { rewrite (strip_spaces stdin Hblank). unfold read_events.
    now rewrite Hempty. }
  assert (Hrun : run (main rt argv stdin) = (header +:+ nl, Ok tt)).
  { rewrite (main_events rt argv stdin [] Hread (Forall_nil _)).
    cbn [rows_of filter map lines_text]. now rewrite append_nil_r. }
  repeat split.
  - now apply strip_spaces.
  - exact Hread.
  - exact Hrun.
  - now rewrite Hrun.
Qed.

Lemma blank_input_prints_header_witness :
  run (main model_runtime ["summarize_logs.py"]
         (" " +:+ nl +:+ tab +:+ nl))
  = (header +:+ nl, Ok tt)
  /\ run (main model_runtime ["summarize_logs.py"] "") = (header +:+ nl, Ok tt).
Proof.
  split.
  - apply (blank_input_prints_header model_runtime ["summarize_logs.py"]
             (" " +:+ nl +:+ tab +:+ nl)); reflexivity.
  - apply (blank_input_prints_header model_runtime ["summarize_logs.py"] "");
      reflexivity.
Defined.

(** C6.  When the whole input does not decode and one line that is not
    blank does not decode either, the run ends with the decoding error:
    nothing is written, not even the header, no event of another line
    is reported, and the exit status is not 0. *)
Theorem line_failure_is_fatal (rt : runtime) (argv : list string)
  (stdin line : string) :
  loads rt (strip stdin) = None ->
  In line (splitlines (strip stdin)) ->
  nonblank line = true ->
  loads rt line = None ->
  read_events rt (strip stdin) = Raise JSONDecodeError
  /\ run (main rt argv stdin) = ("", Raise JSONDecodeError)
  /\ exit_status (snd (run (main rt argv stdin))) = 1.
Proof.
  intros Hwhole Hin Hnb Hline.
  assert (Hread : read_events rt (strip stdin) = Raise JSONDecodeError).
  { unfold read_events. rewrite Hwhole.
    rewrite (decode_lines_failure rt _ line); [reflexivity | | exact Hline].
    apply filter_In. now split. }
  rewrite main_unfold, Hread. now repeat split.
Qed.

Lemma line_failure_is_fatal_witness :
  let stdin :=
    quoted "{'type':'bet','message':'T: bet of 40 (raise)'}" +:+ nl
    +:+ "not json" +:+ nl
    +:+ quoted "{'type':'bet','message':'T: bet of 0 (fold)'}" in
  run (main model_runtime ["summarize_logs.py"; "T"] stdin)
  = ("", Raise JSONDecodeError).
Proof.
  intros stdin.
  apply (line_failure_is_fatal model_runtime ["summarize_logs.py"; "T"]
           stdin "not json").
  - vm_compute. reflexivity.
  - vm_compute. right. left. reflexivity.
  - vm_compute. reflexivity.
  - vm_compute. reflexivity.
Defined.

(** ** Inputs that are not a sequence of records *)

Lemma handle_non_record (rt : runtime) (team : string) (ev : json)
  (out : string) :
  is_record ev = false -> handle rt team ev out = (out, Raise AttributeError).
Proof. destruct ev; cbn; intros H; try discriminate; reflexivity. Qed.

Lemma for_each_completes (rt : runtime) (team : string) (evs : list json)
  (out out' : string) :
  for_each evs (handle rt team) out = (out', Ok tt) ->
  Forall (fun ev => is_record ev = true) evs.
Proof.
  revert out. induction evs as [|ev evs IH]; intros out H; [constructor |].
  cbn [for_each] in H. unfold bind in H.
  destruct (is_record ev) eqn:Hrec.
  - constructor; [exact Hrec |].
    destruct (handle rt team ev out) as [o [[]|e]]; [|discriminate].
    now apply (IH o).
  - rewrite (handle_non_record rt team ev out Hrec) in H. discriminate.
Qed.

(** C10.  When the input decodes as one object that is not empty, the
    loop visits the keys of the object, which are strings, and the
    first [ev.get] raises after the header was written: the run ends
    with an attribute error, which is not a decoding error, and the
    output is the header alone.  A run completes only if every value
    the loop visits is a record. *)
Theorem object_input_raises (rt : runtime) (argv : list string)
  (stdin : string) (key : string) (value : json)
  (rest : list (string * json)) :
  loads rt (strip stdin) = Some (JObj ((key, value) :: rest)) ->
  PyVal.iterate (JObj ((key, value) :: rest))
  = Ok (JStr key :: map (fun kv => JStr (fst kv)) rest)
  /\ run (main rt argv stdin) = (header +:+ nl, Raise AttributeError)
  /\ exit_status (snd (run (main rt argv stdin))) = 1
  /\ (forall input,
      snd (run (main rt argv input)) = Ok tt ->
      exists events evs,
        read_events rt (strip input) = Ok events
        /\ PyVal.iterate events = Ok evs
        /\ Forall (fun ev => is_record ev = true) evs).
Proof.
  intros Hloads.
  assert (Hrun : run (main rt argv stdin) = (header +:+ nl, Raise AttributeError)).
  { rewrite main_unfold. unfold read_events. rewrite Hloads. reflexivity. }
  repeat split.
  - exact Hrun.
  - now rewrite Hrun.
  - intros input. rewrite main_unfold.
    destruct (read_events rt (strip input)) as [events|e]; [|discriminate].
    destruct (PyVal.iterate events) as [evs|e] eqn:Hiter; [|discriminate].
    intros H. exists events, evs.
    split; [reflexivity | split; [exact Hiter |]].
    destruct (for_each evs (handle rt (team_of argv)) (header +:+ nl))
      as [o r] eqn:E.
    cbn in H. subst r. now apply for_each_completes in E.
Qed.

Lemma object_input_raises_witness :
  run (main model_runtime ["summarize_logs.py"; "T"]
         (quoted "{'type':'bet','message':'T: bet of 40 (raise)'}"))
  = (header +:+ nl, Raise AttributeError).
Proof.
  apply (object_input_raises model_runtime ["summarize_logs.py"; "T"]
           (quoted "{'type':'bet','message':'T: bet of 40 (raise)'}")
           "type" (JStr "bet") [("message", JStr "T: bet of 40 (raise)")]).
  reflexivity.
Defined.

(** ** The two encodings of a sequence of events *)

(** When the whole text of the lines does not decode, the lines are
    read one by one and give what the array gives. *)
Lemma lines_agree_with_array (rt : runtime) (argv : list string)
  (array lines : string) (evs : list json) :
  loads rt (strip array) = Some (JArr evs) ->
  loads rt (strip lines) = None ->
  decode_lines rt (filter (nonblank) (splitlines (strip lines))) = Some evs ->
  run (main rt argv array) = run (main rt argv lines).
Proof.
  intros Harray Hwhole Hlines. rewrite !main_unfold. unfold read_events.
  now rewrite Harray, Hwhole, Hlines.
Qed.

Example two_records_agree :
  let r1 := quoted "{'type':'bet','message':'T: bet of 40 (raise)'}" in
  let r2 := quoted "{'type':'winner_announcement','message':'T wins'}" in
  run (main model_runtime ["summarize_logs.py"; "T"]
         ("[" +:+ r1 +:+ "," +:+ r2 +:+ "]"))
  = run (main model_runtime ["summarize_logs.py"; "T"]
           (r1 +:+ nl +:+ r2 +:+ nl)).
Proof. reflexivity. Qed.

(** C5.  A sequence of one record shows the difference: as an array the
    record is reported in one row; as a single line the text decodes as
    one object, the loop visits its keys, and the run ends with an
    attribute error after the header. *)
Theorem one_record_encodings_differ :
  let argv := ["summarize_logs.py"; "T"] in
  let record := quoted "{'type':'bet','message':'T: bet of 40 (raise)'}" in
  run (main model_runtime argv ("[" +:+ record +:+ "]"))
  = (lines_text
       [header;
        join tab [""; "PRE"; "raise"; "40"; ""; ""; "T: bet of 40 (raise)"]],
     Ok tt)
  /\ run (main model_runtime argv (record +:+ nl))
     = (lines_text [header], Raise AttributeError).
Proof. split; reflexivity. Qed.

(** * Further properties of the program *)

(** ** Events outside the data model *)

(** X1.  A record is skipped without any error, whatever its other
    fields hold, when its type is neither bet nor winner_announcement,
    or when its message is a string that does not contain the team
    name: the message is looked at only for the two types, and the
    game state only for an event that is reported. *)
Theorem other_events_are_skipped (rt : runtime) (team : string) (ev : json)
  (out : string) :
  is_record ev = true ->
  (PyVal.eq_str (event_type ev) "bet" = false
   /\ PyVal.eq_str (event_type ev) "winner_announcement" = false)
  \/ (exists msg, field "message" (JStr "") ev = JStr msg
                  /\ contains msg team = false) ->
  handle rt team ev out = (out, Ok tt).
Proof.
  intros Hrec Hcase. unfold handle.
  rewrite !(get_record ev _ _ Hrec), !bind_ok. fold (event_type ev).
  destruct Hcase as [[Hbet Hwin] | (msg & Hmsg & Hteam)].
  - rewrite Hbet, Hwin. reflexivity.
  - rewrite Hmsg. cbn [PyVal.str_in]. rewrite Hteam.
    destruct (PyVal.eq_str (event_type ev) "bet");
      destruct (PyVal.eq_str (event_type ev) "winner_announcement");
      reflexivity.
Qed.

Lemma other_events_are_skipped_witness :
  handle model_runtime "T"
    (JObj [("type", JStr "deal"); ("message", JInt 5); ("game_state", JNull)])
    "so far"
  = ("so far", Ok tt)
  /\ handle model_runtime "T"
       (JObj [("type", JStr "bet"); ("message", JStr "Others: bet of 5");
              ("game_state", JStr "broken")])
       "so far"
     = ("so far", Ok tt).
Proof.
  split.
  - apply other_events_are_skipped; [reflexivity |].
    left. split; reflexivity.
  - apply other_events_are_skipped; [reflexivity |].
    right. eexists. split; reflexivity.
Defined.

(** X2.  A bet or a winner announcement that mentions the team and
    whose game state is present but is not a record raises an attribute
    error; one whose community_cards is a scalar (null, a boolean, a
    number) raises a type error.  In both cases nothing is written for
    the event. *)
Theorem bad_game_state_raises (rt : runtime) (team : string) (ev : json)
  (msg out : string) :
  is_record ev = true ->
  field "message" (JStr "") ev = JStr msg ->
  contains msg team = true ->
  PyVal.eq_str (event_type ev) "bet" = true
  \/ PyVal.eq_str (event_type ev) "winner_announcement" = true ->
  (is_record (event_state ev) = false ->
   handle rt team ev out = (out, Raise AttributeError))
  /\ (is_record (event_state ev) = true ->
      is_scalar (field "community_cards" (JArr []) (event_state ev)) = true ->
      handle rt team ev out = (out, Raise TypeError)).
Proof.
  intros Hrec Hmsg Hteam Htype.
  split.
  - intros Hgs. unfold handle.
    rewrite !(get_record ev _ _ Hrec), !bind_ok.
    fold (event_type ev) (event_state ev).
    rewrite Hmsg. cbn [PyVal.str_in]. rewrite Hteam.
    assert (Hget : forall k d, PyVal.get (event_state ev) k d = Raise AttributeError).
    { intros k d. destruct (event_state ev); try reflexivity. discriminate. }
    destruct (PyVal.eq_str (event_type ev) "bet") eqn:Hbet;
      cbn [PyVal.and_then]; rewrite bind_ok.
    + cbv beta iota. now rewrite Hget.
    + destruct Htype as [Hb | Hw]; [discriminate |].
      cbv beta iota. rewrite Hw. cbn [PyVal.and_then]. rewrite bind_ok.
      cbv beta iota. now rewrite Hget.
  - intros Hgs Hcc. unfold handle.
    rewrite !(get_record ev _ _ Hrec), !bind_ok.
    fold (event_type ev) (event_state ev).
    rewrite Hmsg. cbn [PyVal.str_in]. rewrite Hteam.
    assert (Hst : street_from_state (event_state ev) = Raise TypeError).
    { unfold street_from_state. rewrite (get_record _ _ _ Hgs). cbn [res_bind].
      destruct (field "community_cards" (JArr []) (event_state ev));
        try discriminate; reflexivity. }
    destruct (PyVal.eq_str (event_type ev) "bet") eqn:Hbet;
      cbn [PyVal.and_then]; rewrite bind_ok.
    + cbv beta iota. rewrite (get_record _ _ _ Hgs), bind_ok. now rewrite Hst.
    + destruct Htype as [Hb | Hw]; [discriminate |].
      cbv beta iota. rewrite Hw. cbn [PyVal.and_then]. rewrite bind_ok.
      cbv beta iota. rewrite (get_record _ _ _ Hgs), bind_ok. now rewrite Hst.
Qed.

Lemma bad_game_state_raises_witness :
  handle model_runtime "T"
    (JObj [("type", JStr "bet"); ("message", JStr "T: bet of 5");
           ("game_state", JNull)]) "so far"
  = ("so far", Raise AttributeError)
  /\ handle model_runtime "T"
       (JObj [("type", JStr "winner_announcement"); ("message", JStr "T wins");
              ("game_state", JObj [("community_cards", JNull)])]) "so far"
     = ("so far", Raise TypeError).
Proof.
  split.
  - apply (bad_game_state_raises model_runtime "T" _ "T: bet of 5");
      try reflexivity. left. reflexivity.
  - apply (bad_game_state_raises model_runtime "T" _ "T wins");
      try reflexivity. right. reflexivity.
Defined.

(** ** Inputs that are not an array *)

(** X3.  When the input decodes to a value that is not an array, the
    header is written first in every case.  A scalar (null, a boolean,
    a number) then raises a type error; an empty object, an empty
    string and an empty array end the run normally with the header
    alone; a string that is not empty raises an attribute error, like
    an object that is not empty. *)
Theorem top_level_value (rt : runtime) (argv : list string) (stdin : string)
  (v : json) :
  loads rt (strip stdin) = Some v ->
  (is_scalar v = true ->
   run (main rt argv stdin) = (header +:+ nl, Raise TypeError))
  /\ (v = JObj [] \/ v = JStr "" \/ v = JArr [] ->
      run (main rt argv stdin) = (header +:+ nl, Ok tt))
  /\ (forall c s, v = JStr (String c s) ->
      run (main rt argv stdin) = (header +:+ nl, Raise AttributeError)).
Proof.
  intros Hloads.
  assert (Hrun : run (main rt argv stdin)
                 = match PyVal.iterate v with
                   | Ok evs => for_each evs (handle rt (team_of argv)) (header +:+ nl)
                   | Raise e => (header +:+ nl, Raise e)
                   end).
  { rewrite main_unfold. unfold read_events. now rewrite Hloads. }
  rewrite Hrun. repeat split.
  - intros Hs. destruct v; try discriminate; reflexivity.
  - intros [-> | [-> | ->]]; reflexivity.
  - intros c s ->. reflexivity.
Qed.

Lemma top_level_value_witness :
  run (main model_runtime ["summarize_logs.py"] "42")
  = (header +:+ nl, Raise TypeError)
  /\ run (main model_runtime ["summarize_logs.py"] " {} ")
     = (header +:+ nl, Ok tt)
  /\ run (main model_runtime ["summarize_logs.py"] (quoted "'bet'"))
     = (header +:+ nl, Raise AttributeError).
Proof.
  split; [|split].
  - destruct (top_level_value model_runtime ["summarize_logs.py"] "42"
                (JInt 42) eq_refl) as (Hscalar & _ & _).
    now apply Hscalar.
  - destruct (top_level_value model_runtime ["summarize_logs.py"] " {} "
                (JObj []) eq_refl) as (_ & Hempty & _).
    apply Hempty. now left.
  - destruct (top_level_value model_runtime ["summarize_logs.py"]
                (quoted "'bet'") (JStr "bet") eq_refl) as (_ & _ & Hstr).
    now apply (Hstr "b"%char "et").
Defined.

(** ** A failing event *)

Lemma writes_last_lift {A B : Type} (r : res A) (k : A -> Py B) :
  (forall a, writes_last (k a)) -> writes_last (bind (lift r) k).
Proof.
  intros Hk. destruct r as [a|e].
  - exact (Hk a).
  - split; [intros out | intros e' _]; cbn; [now rewrite append_nil_r | reflexivity].
Qed.

Lemma writes_last_print (line : string) : writes_last (print line).
Proof. split; [intros out | intros e H]; cbn in *; [reflexivity | discriminate]. Qed.

Lemma writes_last_ret {A : Type} (a : A) : writes_last (ret a).
Proof.
  split; [intros out | intros e H]; cbn in *;
    [now rewrite append_nil_r | reflexivity].
Qed.

(** The body of the loop writes at most its row, as its last step. *)
Lemma handle_writes_last (rt : runtime) (team : string) (ev : json) :
  writes_last (handle rt team ev).
Proof.
  unfold handle.
  apply writes_last_lift; intros t. apply writes_last_lift; intros gs.
  apply writes_last_lift; intros msg. apply writes_last_lift; intros [].
  - do 6 (apply writes_last_lift; intros ?). apply writes_last_print.
  - apply writes_last_lift; intros [].
    + do 4 (apply writes_last_lift; intros ?). apply writes_last_print.
    + apply writes_last_ret.
Qed.

Lemma for_each_app {A : Type} (xs ys : list A) (body : A -> Py unit)
  (out : string) :
  for_each (xs ++ ys) body out
  = match for_each xs body out with
    | (out', Ok _) => for_each ys body out'
    | (out', Raise e) => (out', Raise e)
    end.
Proof.
  revert out. induction xs as [|x xs IH]; intros out; [reflexivity |].
  cbn [app for_each]. unfold bind.
  destruct (body x out) as [o [[]|e]]; [apply IH | reflexivity].
Qed.

(** X4.  When an event raises, the run ends with that exception, the
    rows of the events before it stay in the output after the header,
    nothing is written for the failing event, and the events after it
    are not looked at. *)
Theorem failing_event_keeps_earlier_rows (rt : runtime) (argv : list string)
  (stdin : string) (before : list json) (ev : json) (after : list json)
  (written : string) (e : exn) :
  read_events rt (strip stdin) = Ok (JArr (before ++ ev :: after)) ->
  Forall (fun x => is_event x = true) before ->
  handle rt (team_of argv) ev "" = (written, Raise e) ->
  written = ""
  /\ run (main rt argv stdin)
     = (lines_text (header :: rows_of rt (team_of argv) before), Raise e).
Proof.
  intros Hread Hbefore Hev.
  destruct (handle_writes_last rt (team_of argv) ev) as [Hframe Hsilent].
  assert (Hw : written = "").
  { specialize (Hsilent e). rewrite Hev in Hsilent. now apply Hsilent. }
  split; [exact Hw |]. subst written.
  rewrite main_unfold, Hread. cbn [PyVal.iterate].
  rewrite for_each_app, (for_each_events rt _ before _ Hbefore).
  cbn [for_each]. unfold bind at 1. rewrite Hframe, Hev. cbn [fst snd].
  rewrite append_nil_r. cbn [lines_text]. now rewrite append_assoc.
Qed.

Lemma failing_event_keeps_earlier_rows_witness :
  run (main model_runtime ["summarize_logs.py"; "T"]
         (quoted "[{'type':'bet','message':'T: bet of 0 (check)'},{'type':'bet','message':'T: bet of 5','game_state':null},{'type':'bet','message':'T: bet of 9'}]"))
  = (lines_text
       [header;
        join tab [""; "PRE"; "check"; "0"; ""; ""; "T: bet of 0 (check)"]],
     Raise AttributeError).
Proof.
  apply (failing_event_keeps_earlier_rows model_runtime
           ["summarize_logs.py"; "T"] _
           [JObj [("type", JStr "bet"); ("message", JStr "T: bet of 0 (check)")]]
           (JObj [("type", JStr "bet"); ("message", JStr "T: bet of 5");
                  ("game_state", JNull)])
           [JObj [("type", JStr "bet"); ("message", JStr "T: bet of 9")]]
           "" AttributeError).
  - vm_compute. reflexivity.
  - repeat constructor.
  - reflexivity.
Defined.

(** ** The street column *)

Lemma str_nat_inj (n m : nat) : str_nat n = str_nat m -> n = m.
Proof.
  intros H. pose proof (str_nat_decimal n) as Hn.
  rewrite H, str_nat_decimal in Hn. now inversion Hn.
Qed.

(** Read as a decimal numeral, a street gives back the number of cards,
    except for the four names, which are no numerals. *)
Lemma street_name_numeral (n : nat) :
  option_map Nat.of_uint (NilZero.uint_of_string (street_name n))
  = match n with
    | 0 | 3 | 4 | 5 => None
    | _ => Some n
    end.
Proof.
  do 6 (destruct n as [|n]; [reflexivity |]).
  change (street_name (S (S (S (S (S (S n)))))))
    with (str_nat (S (S (S (S (S (S n))))))).
  apply str_nat_decimal.
Qed.

Lemma street_name_inj (n m : nat) : street_name n = street_name m -> n = m.
Proof.
  intros H. pose proof (street_name_numeral n) as Hn.
  rewrite H, street_name_numeral in Hn.
  destruct n as [|[|[|[|[|[|n]]]]]]; destruct m as [|[|[|[|[|[|m]]]]]];
    try reflexivity; try discriminate Hn; try discriminate H.
  now inversion Hn.
Qed.

(** X5.  The street determines the number of community cards: on two
    game states of the data model, street_from_state gives the same
    street only when the two have the same number of cards. *)
Theorem street_determines_cards (gs1 gs2 : json) :
  is_game_state gs1 = true -> is_game_state gs2 = true ->
  street_from_state gs1 = street_from_state gs2 ->
  cards_count gs1 = cards_count gs2.
Proof.
  intros H1 H2. rewrite (street_of_game_state _ H1), (street_of_game_state _ H2).
  intros H. inversion H as [Hname]. now apply street_name_inj.
Qed.

Lemma street_determines_cards_witness :
  cards_count (JObj [("community_cards", JArr [JInt 1; JInt 2; JInt 3])])
  = cards_count (JObj [("community_cards", JStr "abc"); ("pot", JInt 4)]).
Proof.
  apply street_determines_cards; reflexivity.
Defined.

(** ** The columns of a row *)

Lemma digits_no_tab (s : string) :
  all_chars is_digit s = true -> count_char "009"%char s = 0.
Proof.
  induction s as [|c s IH]; [reflexivity |].
  cbn [all_chars count_char]. intros H. apply andb_prop in H as [Hc Hs].
  rewrite (IH Hs). destruct (Ascii.eqb_spec "009"%char c) as [<-|]; [|reflexivity].
  discriminate.
Qed.

Lemma numeral_digits (d : Decimal.uint) :
  all_chars is_digit (NilEmpty.string_of_uint d) = true.
Proof. induction d; cbn; try reflexivity; assumption. Qed.

Lemma str_nat_digits (n : nat) : all_chars is_digit (str_nat n) = true.
Proof.
  unfold str_nat, NilZero.string_of_uint.
  destruct (Nat.to_uint n) eqn:E; try apply numeral_digits. reflexivity.
Qed.

Lemma street_name_no_tab (n : nat) : count_char "009"%char (street_name n) = 0.
Proof.
  do 6 (destruct n as [|n]; [reflexivity |]).
  apply digits_no_tab, str_nat_digits.
Qed.

Lemma spec_action_words (msg amt : string) :
  In (spec_action msg amt) ["call"; "raise"; "check"; "bet"; "fold"; "?"].
Proof.
  unfold spec_action, action_rules. cbn [first_match].
  destruct (contains msg "(call)"); [cbn; tauto |].
  destruct (contains msg "(raise)"); [cbn; tauto |].
  destruct (contains msg "(check)"); [cbn; tauto |].
  destruct (negb (String.eqb amt "0")); [cbn; tauto |].
  destruct (contains msg "(fold)"); cbn; tauto.
Qed.

Lemma spec_action_no_tab (msg amt : string) :
  count_char "009"%char (spec_action msg amt) = 0.
Proof.
  pose proof (spec_action_words msg amt) as H. cbn [In] in H.
  repeat (destruct H as [<- | H]; [reflexivity |]). contradiction.
Qed.

Lemma bet_amount_digits (msg : string) :
  is_empty (bet_amount msg) = false
  /\ all_chars is_digit (bet_amount msg) = true.
Proof.
  unfold bet_amount.
  destruct (Re.search amount_pattern msg) as [g|] eqn:E; [|now split].
  destruct (search_amount_group _ _ E) as (d & -> & Hne & Hall).
  cbn. rewrite Hne. now split.
Qed.

Lemma row_tabs (rt : runtime) (team : string) (ev : json) :
  let gs := event_state ev in
  count_char "009"%char (row_of rt team ev)
  = 6 + count_char "009"%char (fmt rt (field "round" (JStr "") gs))
    + count_char "009"%char (fmt rt (field "pot" (JStr "") gs))
    + count_char "009"%char (fmt rt (field "current_buy_in" (JStr "") gs))
    + count_char "009"%char (event_message ev).
Proof.
  intros gs. unfold row_of.
  destruct (is_bet team ev); unfold bet_row, win_row, join;
    cbn [String.concat]; fold gs; rewrite !count_char_append.
  - rewrite street_name_no_tab, spec_action_no_tab.
    rewrite (digits_no_tab _ (proj2 (bet_amount_digits _))).
    change (count_char "009"%char tab) with 1. lia.
  - rewrite street_name_no_tab.
    change (count_char "009"%char tab) with 1.
    change (count_char "009"%char "won") with 0.
    change (count_char "009"%char "") with 0. lia.
Qed.

(** X6.  The row written for a reported event has six tabs, like the
    header, plus the tabs that its round, pot, buy-in and message hold:
    the street, the action and the amount never hold one.  The table
    has seven columns in every row exactly when these four fields are
    free of tabs. *)
Theorem row_has_seven_columns (rt : runtime) (team : string) (ev : json)
  (out : string) :
  is_event ev = true ->
  relevant team ev = true ->
  let gs := event_state ev in
  exists row,
    handle rt team ev out = (out +:+ row +:+ nl, Ok tt)
    /\ count_char "009"%char header = 6
    /\ count_char "009"%char row
       = 6 + count_char "009"%char (fmt rt (field "round" (JStr "") gs))
         + count_char "009"%char (fmt rt (field "pot" (JStr "") gs))
         + count_char "009"%char (fmt rt (field "current_buy_in" (JStr "") gs))
         + count_char "009"%char (event_message ev).
Proof.
  intros Hev Hrel gs. exists (row_of rt team ev). repeat split.
  - rewrite (handle_event rt team ev out Hev). unfold emitted.
    rewrite Hrel. cbn [lines_text]. now rewrite append_nil_r.
  - apply row_tabs.
Qed.

Lemma row_has_seven_columns_witness :
  let ev := JObj [("type", JStr "bet");
                  ("message", JStr "T: bet of 5 (call)");
                  ("game_state", JObj [("pot", JInt 10)])] in
  exists row,
    handle model_runtime "T" ev "" = (row +:+ nl, Ok tt)
    /\ count_char "009"%char row = 6.
Proof.
  intros ev.
  destruct (row_has_seven_columns model_runtime "T" ev "" eq_refl eq_refl)
    as (row & Hrun & _ & Htabs).
  exists row. split; [exact Hrun | exact Htabs].
Defined.

Lemma split_at_tab (a b x y : string) :
  count_char "009"%char a = 0 -> count_char "009"%char b = 0 ->
  a +:+ tab +:+ x = b +:+ tab +:+ y -> a = b /\ x = y.
Proof.
  revert b. induction a as [|c a IH]; intros [|d b] Ha Hb H; cbn in *.
  - inversion H. now split.
  - inversion H as [[Hd Hx]]. subst d. discriminate.
  - inversion H as [[Hc Hx]]. subst c. discriminate.
  - inversion H as [[Hc Hx]]. subst d.
    destruct (IH b) as [-> ->]; [lia | lia | exact Hx |]. now split.
Qed.

(** X7.  No row equals the header line: whatever the fields of a
    reported event hold, its row differs from the header, so the header
    text stands on the first line only as the header. *)
Theorem row_differs_from_header (rt : runtime) (team : string) (ev : json)
  (out : string) :
  is_event ev = true ->
  relevant team ev = true ->
  exists row,
    handle rt team ev out = (out +:+ row +:+ nl, Ok tt)
    /\ String.eqb row header = false.
Proof.
  intros Hev Hrel. exists (row_of rt team ev). split.
  - rewrite (handle_event rt team ev out Hev). unfold emitted.
    rewrite Hrel. cbn [lines_text]. now rewrite append_nil_r.
  - apply String.eqb_neq. intros Heq.
    pose proof (row_tabs rt team ev) as Htabs. cbv zeta in Htabs.
    rewrite Heq in Htabs. change (count_char "009"%char header) with 6 in Htabs.
    assert (Hrnd : count_char "009"%char
                     (fmt rt (field "round" (JStr "") (event_state ev))) = 0)
      by lia.
    assert (Hstreet : street_name (cards_count (event_state ev)) = "street").
    { unfold row_of, bet_row, win_row, header, join in Heq.
      destruct (is_bet team ev); cbn [String.concat] in Heq;
        apply split_at_tab in Heq as [_ Heq];
        try assumption; try reflexivity;
        apply split_at_tab in Heq as [Hs _];
        try assumption; try reflexivity; apply street_name_no_tab. }
    pose proof (street_name_numeral (cards_count (event_state ev))) as Hnum.
    rewrite Hstreet in Hnum.
    destruct (cards_count (event_state ev)) as [|[|[|[|[|[|n]]]]]];
      discriminate.
Qed.

Lemma row_differs_from_header_witness :
  let ev :=
    JObj [("type", JStr "winner_announcement");
          ("message", JStr "message");
          ("game_state",
            JObj [("round", JStr "round"); ("pot", JStr "pot");
                  ("current_buy_in", JStr "buyin")])] in
  exists row,
    handle model_runtime "message" ev "" = (row +:+ nl, Ok tt)
    /\ String.eqb row header = false.
Proof.
  intros ev.
  exact (row_differs_from_header model_runtime "message" ev "" eq_refl eq_refl).
Defined.

(** ** Reading the amount *)

Lemma lit_append (s rest : string) : Re.lit s (s +:+ rest) = Some rest.
Proof.
  induction s as [|c s IH]; cbn; [reflexivity |].
  now rewrite Ascii.eqb_refl.
Qed.

Lemma prefix_lit (s text : string) :
  prefix s text = match Re.lit s text with Some _ => true | None => false end.
Proof.
  revert text. induction s as [|c s IH]; intros [|d text]; cbn;
    try reflexivity.
  destruct (ascii_dec c d) as [->|Hne].
  - now rewrite Ascii.eqb_refl.
  - apply Ascii.eqb_neq in Hne. now rewrite Hne.
Qed.

Lemma contains_intro (before needle after : string) :
  contains (before +:+ needle +:+ after) needle = true.
Proof.
  induction before as [|c before IH]; cbn [append].
  - destruct (needle +:+ after) eqn:E; cbn [contains];
      rewrite prefix_lit, <- E, lit_append; reflexivity.
  - cbn [contains]. rewrite IH. apply orb_true_r.
Qed.

Lemma contains_elim (hay needle : string) :
  contains hay needle = true ->
  exists before after, hay = before +:+ needle +:+ after.
Proof.
  induction hay as [|c hay IH]; cbn [contains]; intros H.
  - rewrite orb_false_r, prefix_lit in H.
    destruct (Re.lit needle "") as [rest|] eqn:E; [|discriminate].
    apply lit_inv in E. now exists "", rest.
  - apply orb_prop in H as [H | H].
    + rewrite prefix_lit in H.
      destruct (Re.lit needle (String c hay)) as [rest|] eqn:E; [|discriminate].
      apply lit_inv in E. now exists "", rest.
    + destruct (IH H) as (before & after & ->).
      now exists (String c before), after.
Qed.

Lemma contains_trans (a b c : string) :
  contains a b = true -> contains b c = true -> contains a c = true.
Proof.
  intros Hab Hbc.
  apply contains_elim in Hab as (a1 & a2 & ->).
  apply contains_elim in Hbc as (b1 & b2 & ->).
  rewrite !append_assoc, <- (append_assoc a1 b1). apply contains_intro.
Qed.

Lemma span_run (p : ascii -> bool) (run rest : string) :
  all_chars p run = true ->
  match rest with String c _ => negb (p c) | "" => true end = true ->
  span p (run +:+ rest) = (run, rest).
Proof.
  intros Hrun Hrest. induction run as [|c run IH]; cbn [append].
  - destruct rest as [|c rest]; [reflexivity |]. cbn.
    apply negb_true_iff in Hrest. now rewrite Hrest.
  - cbn in *. apply andb_prop in Hrun as [Hc Hrun].
    now rewrite Hc, (IH Hrun).
Qed.

(** The words [bet of ] cannot start inside a text that does not hold
    them and end inside a following copy of themselves. *)
Lemma lit_straddle (x tail : string) :
  is_empty x = false ->
  Re.lit "bet of " x = None ->
  Re.lit "bet of " (x +:+ "bet of " +:+ tail) = None.
Proof.
  intros Hx H.
  destruct x as [|c1 x]; [discriminate |].
  cbn [Re.lit append] in *.
  destruct (Ascii.eqb "b" c1); [|reflexivity].
  destruct x as [|c2 x]; [reflexivity |]. cbn [Re.lit append] in *.
  destruct (Ascii.eqb "e" c2); [|reflexivity].
  destruct x as [|c3 x]; [reflexivity |]. cbn [Re.lit append] in *.
  destruct (Ascii.eqb "t" c3); [|reflexivity].
  destruct x as [|c4 x]; [reflexivity |]. cbn [Re.lit append] in *.
  destruct (Ascii.eqb " " c4); [|reflexivity].
  destruct x as [|c5 x]; [reflexivity |]. cbn [Re.lit append] in *.
  destruct (Ascii.eqb "o" c5); [|reflexivity].
  destruct x as [|c6 x]; [reflexivity |]. cbn [Re.lit append] in *.
  destruct (Ascii.eqb "f" c6); [|reflexivity].
  destruct x as [|c7 x]; [reflexivity |]. cbn [Re.lit append] in *.
  destruct (Ascii.eqb " " c7); [discriminate | reflexivity].
Qed.

Lemma search_skips (before tail : string) :
  contains before "bet of " = false ->
  Re.search amount_pattern (before +:+ "bet of " +:+ tail)
  = Re.search amount_pattern ("bet of " +:+ tail).
Proof.
  induction before as [|c before IH]; intros H; [reflexivity |].
  cbn [contains] in H. apply orb_false_elim in H as [Hpre Hrest].
  rewrite prefix_lit in Hpre.
  destruct (Re.lit "bet of " (String c before)) eqn:E; [discriminate |].
  change (String c before +:+ "bet of " +:+ tail)
    with (String c (before +:+ "bet of " +:+ tail)).
  cbn [Re.search].
  change (String c (before +:+ "bet of " +:+ tail))
    with (String c before +:+ "bet of " +:+ tail).
  rewrite match_amount, match_first.
  rewrite (lit_straddle (String c before) tail eq_refl E).
  now apply IH.
Qed.

(** X8.  The amount is read after the first occurrence of the words
    [bet of ]: when the text before them does not hold these words and
    they are followed by a run of digits that ends the message or is
    followed by a character that is no digit, the amount is that run,
    with its leading zeros, whatever comes later. *)
Theorem amount_after_first_bet_of (before digits rest : string) :
  contains before "bet of " = false ->
  is_empty digits = false ->
  all_chars is_digit digits = true ->
  match rest with String c _ => negb (is_digit c) | "" => true end = true ->
  bet_amount (before +:+ "bet of " +:+ digits +:+ rest) = digits.
Proof.
  intros Hbefore Hne Hdigits Hrest. unfold bet_amount.
  rewrite (search_skips before (digits +:+ rest) Hbefore).
  assert (Hm : Re.match_at amount_pattern ("bet of " +:+ digits +:+ rest)
               = Some [(1, digits)]).
  { rewrite match_amount, match_first, lit_append.
    rewrite (span_run is_digit digits rest Hdigits Hrest). cbn [fst].
    now rewrite Hne. }
  change ("bet of " +:+ digits +:+ rest)
    with (String "b" ("et of " +:+ digits +:+ rest)) at 1.
  cbn [Re.search].
  change (String "b" ("et of " +:+ digits +:+ rest))
    with ("bet of " +:+ digits +:+ rest).
  rewrite Hm. cbn. now rewrite Hne.
Qed.

Lemma amount_after_first_bet_of_witness :
  bet_amount "The Real Donkey Killers: bet of 007 (raise), not a bet of 9"
  = "007".
Proof.
  apply (amount_after_first_bet_of "The Real Donkey Killers: " "007"
           " (raise), not a bet of 9"); reflexivity.
Defined.

(** X9.  Without the words [bet of ] in its message a bet has the
    amount 0, and its action is never bet: it is call, raise, check,
    fold or the question mark. *)
Theorem no_bet_of_no_amount (msg : string) :
  contains msg "bet of " = false ->
  bet_amount msg = "0"
  /\ In (spec_action msg (bet_amount msg)) ["call"; "raise"; "check"; "fold"; "?"].
Proof.
  intros H.
  assert (Hamt : bet_amount msg = "0").
  { unfold bet_amount.
    destruct (Re.search amount_pattern msg) as [g|] eqn:E; [|reflexivity].
    apply search_match in E as (before & at_ & -> & Hm).
    rewrite match_amount, match_first in Hm.
    destruct (Re.lit "bet of " at_) as [rest|] eqn:El; [|discriminate].
    apply lit_inv in El. subst at_.
    now rewrite contains_intro in H. }
  split; [exact Hamt |]. rewrite Hamt.
  unfold spec_action, action_rules. cbn [first_match negb String.eqb].
  destruct (contains msg "(call)"); [cbn; tauto |].
  destruct (contains msg "(raise)"); [cbn; tauto |].
  destruct (contains msg "(check)"); [cbn; tauto |].
  cbn.
  destruct (contains msg "(fold)"); cbn; tauto.
Qed.

Lemma no_bet_of_no_amount_witness :
  bet_amount "T: all in with 500 (raise)" = "0".
Proof.
  apply (no_bet_of_no_amount "T: all in with 500 (raise)"). reflexivity.
Defined.

(** ** The team name *)

(** X10.  The tests for the action look at the whole message, the team
    name included: when the team name itself holds the text (call),
    every bet reported for the team is a call, whatever the message
    says after the name. *)
Theorem team_name_decides_action (rt : runtime) (team : string) (ev : json)
  (out : string) :
  is_event ev = true ->
  event_type ev = JStr "bet" ->
  contains (event_message ev) team = true ->
  contains team "(call)" = true ->
  let gs := event_state ev in
  handle rt team ev out
  = (out +:+ join tab [fmt rt (field "round" (JStr "") gs);
                       street_name (cards_count gs);
                       "call";
                       bet_amount (event_message ev);
                       fmt rt (field "pot" (JStr "") gs);
                       fmt rt (field "current_buy_in" (JStr "") gs);
                       event_message ev] +:+ nl,
     Ok tt).
Proof.
  intros Hev Ht Hm Hcall gs.
  rewrite (handle_bet rt team ev out Hev (is_bet_intro team ev Ht Hm)).
  unfold bet_row, spec_action, action_rules. cbn [first_match].
  now rewrite (contains_trans _ _ _ Hm Hcall).
Qed.

Lemma team_name_decides_action_witness :
  handle model_runtime "Who (call)s"
    (JObj [("type", JStr "bet");
           ("message", JStr "Who (call)s: bet of 90 (raise)")]) ""
  = (join tab [""; "PRE"; "call"; "90"; ""; ""; "Who (call)s: bet of 90 (raise)"]
     +:+ nl, Ok tt).
Proof.
  apply (team_name_decides_action model_runtime "Who (call)s"
           (JObj [("type", JStr "bet");
                  ("message", JStr "Who (call)s: bet of 90 (raise)")]) "");
    reflexivity.
Defined.

Lemma contains_empty (s : string) : contains s "" = true.
Proof. destruct s; reflexivity. Qed.

(** X11.  With the empty team name every bet and every winner
    announcement of the data model is reported, whatever its message:
    the empty text is a substring of every message. *)
Theorem empty_team_reports_all (rt : runtime) (ev : json) (out : string) :
  is_event ev = true ->
  PyVal.eq_str (event_type ev) "bet" = true
  \/ PyVal.eq_str (event_type ev) "winner_announcement" = true ->
  exists row, handle rt "" ev out = (out +:+ row +:+ nl, Ok tt).
Proof.
  intros Hev Htype. exists (row_of rt "" ev).
  rewrite (handle_event rt "" ev out Hev). unfold emitted, relevant, is_bet, is_win.
  rewrite contains_empty, !andb_true_r.
  destruct Htype as [-> | ->]; rewrite ?orb_true_r;
    cbn [orb lines_text]; now rewrite append_nil_r.
Qed.

Lemma empty_team_reports_all_witness :
  exists row,
    handle model_runtime ""
      (JObj [("type", JStr "winner_announcement"); ("message", JStr "X wins")])
      ""
    = (row +:+ nl, Ok tt).
Proof.
  apply (empty_team_reports_all model_runtime
           (JObj [("type", JStr "winner_announcement");
                  ("message", JStr "X wins")]) "" eq_refl).
  right. reflexivity.
Defined.

(** X12.  A reported event without a game_state is printed with the
    defaults: an empty round, the street PRE, an empty pot and an empty
    buy-in. *)
Theorem missing_game_state_defaults (rt : runtime) (team : string)
  (fields : list (string * json)) (msg out : string) :
  PyVal.lookup "game_state" fields = None ->
  PyVal.lookup "message" fields = Some (JStr msg) ->
  contains msg team = true ->
  (PyVal.lookup "type" fields = Some (JStr "bet") ->
   handle rt team (JObj fields) out
   = (out +:+ join tab [""; "PRE"; spec_action msg (bet_amount msg);
                        bet_amount msg; ""; ""; msg] +:+ nl, Ok tt))
  /\ (PyVal.lookup "type" fields = Some (JStr "winner_announcement") ->
      handle rt team (JObj fields) out
      = (out +:+ join tab [""; "PRE"; "won"; ""; ""; ""; msg] +:+ nl, Ok tt)).
Proof.
  intros Hgs Hmsg Hteam.
  assert (Hev : is_event (JObj fields) = true).
  { unfold is_event, field. now rewrite Hmsg, Hgs. }
  assert (Hem : event_message (JObj fields) = msg).
  { unfold event_message, field. now rewrite Hmsg. }
  assert (Hes : event_state (JObj fields) = JObj []).
  { unfold event_state, field. now rewrite Hgs. }
  split; intros Htype.
  - rewrite (handle_bet rt team _ out Hev).
    + unfold bet_row. now rewrite Hem, Hes.
    + apply is_bet_intro; [|now rewrite Hem].
      unfold event_type, field. now rewrite Htype.
  - assert (Ht : event_type (JObj fields) = JStr "winner_announcement").
    { unfold event_type, field. now rewrite Htype. }
    rewrite <- Hem in Hteam.
    destruct (is_win_intro team _ Ht Hteam) as [Hbet Hwin].
    rewrite (handle_win rt team _ out Hev Hbet Hwin).
    unfold win_row. now rewrite Hem, Hes.
Qed.

Lemma missing_game_state_defaults_witness :
  handle model_runtime "T"
    (JObj [("message", JStr "T wins"); ("type", JStr "winner_announcement")])
    ""
  = (join tab [""; "PRE"; "won"; ""; ""; ""; "T wins"] +:+ nl, Ok tt).
Proof.
  destruct (missing_game_state_defaults model_runtime "T"
              [("message", JStr "T wins");
               ("type", JStr "winner_announcement")] "T wins" ""
              eq_refl eq_refl eq_refl) as [_ Hwin].
  now apply Hwin.
Defined.

(** ** White space around the input *)

Lemma lstrip_app_spaces (a s : string) :
  all_chars is_space a = true -> lstrip (a +:+ s) = lstrip s.
Proof.
  induction a as [|c a IH]; cbn; [reflexivity |].
  intros H. apply andb_prop in H as [Hc Ha]. rewrite Hc. now apply IH.
Qed.

Lemma rstrip_spaces (s : string) : all_chars is_space s = true -> rstrip s = "".
Proof.
  induction s as [|c s IH]; cbn; [reflexivity |].
  intros H. apply andb_prop in H as [Hc Hs]. now rewrite (IH Hs), Hc.
Qed.

Lemma rstrip_app_spaces (s b : string) :
  all_chars is_space b = true -> rstrip (s +:+ b) = rstrip s.
Proof.
  intros Hb. induction s as [|c s IH]; cbn.
  - now apply rstrip_spaces.
  - now rewrite IH.
Qed.

Lemma lstrip_app (s b : string) :
  lstrip (s +:+ b)
  = if all_chars is_space s then lstrip b else lstrip s +:+ b.
Proof.
  induction s as [|c s IH]; cbn; [reflexivity |].
  destruct (is_space c); [exact IH | reflexivity].
Qed.

Lemma strip_padded (lead s trail : string) :
  all_chars is_space lead = true -> all_chars is_space trail = true ->
  strip (lead +:+ s +:+ trail) = strip s.
Proof.
  intros Hlead Htrail. unfold strip.
  rewrite (lstrip_app_spaces lead _ Hlead), lstrip_app.
  destruct (all_chars is_space s) eqn:Hs.
  - rewrite (lstrip_spaces trail Htrail), (lstrip_spaces s Hs). reflexivity.
  - now apply rstrip_app_spaces.
Qed.

(** X13.  White space in front of the input and after it changes
    nothing: the run on the padded input is the run on the input. *)
Theorem padding_is_ignored (rt : runtime) (argv : list string)
  (lead stdin trail : string) :
  all_chars is_space lead = true ->
  all_chars is_space trail = true ->
  run (main rt argv (lead +:+ stdin +:+ trail)) = run (main rt argv stdin).
Proof.
  intros Hlead Htrail.
  now rewrite !main_unfold, (strip_padded lead stdin trail Hlead Htrail).
Qed.

Lemma padding_is_ignored_witness :
  run (main model_runtime ["summarize_logs.py"; "T"]
         ((nl +:+ "  ") +:+ quoted "[{'type':'bet','message':'T: bet of 1'}]"
          +:+ (tab +:+ nl)))
  = run (main model_runtime ["summarize_logs.py"; "T"]
           (quoted "[{'type':'bet','message':'T: bet of 1'}]")).
Proof.
  apply (padding_is_ignored model_runtime ["summarize_logs.py"; "T"]
           (nl +:+ "  ") _ (tab +:+ nl)); reflexivity.
Defined.

(** ** Input written one record per line *)

Lemma is_empty_append_char (cur : string) (c : ascii) :
  is_empty (cur +:+ String c "") = false.
Proof. now destruct cur. Qed.

Lemma splitlines_from_line (cur line rest : string) :
  no_break line = true ->
  splitlines_from cur (line +:+ nl +:+ rest)
  = (cur +:+ line) :: splitlines_from "" rest.
Proof.
  unfold no_break. revert cur.
  induction line as [|c line IH]; intros cur H.
  - rewrite append_nil_r. destruct rest; reflexivity.
  - cbn [all_chars] in H. apply andb_prop in H as [Hc Hline].
    apply negb_true_iff in Hc.
    cbn [append splitlines_from]. rewrite Hc.
    change (line +:+ String "010" rest) with (line +:+ nl +:+ rest).
    rewrite (IH _ Hline), append_assoc. reflexivity.
Qed.

Lemma splitlines_from_last (cur line : string) :
  no_break line = true ->
  splitlines_from cur line
  = if is_empty (cur +:+ line) then [] else [cur +:+ line].
Proof.
  unfold no_break. revert cur.
  induction line as [|c line IH]; intros cur H.
  - now rewrite append_nil_r.
  - cbn [all_chars] in H. apply andb_prop in H as [Hc Hline].
    apply negb_true_iff in Hc.
    cbn [splitlines_from]. rewrite Hc, (IH _ Hline), append_assoc.
    reflexivity.
Qed.

Lemma splitlines_records (first : string) (middle : list string)
  (final : string) :
  Forall (fun line => no_break line = true) (first :: middle ++ [final]) ->
  is_empty final = false ->
  splitlines (first +:+ nl +:+ lines_text middle +:+ final)
  = first :: middle ++ [final].
Proof.
  intros Hall Hfinal. inversion Hall as [|x xs Hfirst Hrest]. subst.
  unfold splitlines. rewrite (splitlines_from_line "" first _ Hfirst).
  cbn [append]. f_equal. clear Hall Hfirst.
  induction middle as [|line middle IH].
  - cbn [lines_text append app] in *. inversion Hrest as [|y ys Hf _]. subst.
    rewrite (splitlines_from_last "" final Hf). cbn [append].
    now rewrite Hfinal.
  - cbn [lines_text app] in *. inversion Hrest as [|y ys Hline Hrest']. subst.
    rewrite !append_assoc.
    rewrite (splitlines_from_line "" line _ Hline).
    cbn [append]. f_equal. now apply IH.
Qed.

Lemma rstrip_clean (line : string) :
  ends_clean line = true -> rstrip line = line /\ is_empty line = false.
Proof.
  induction line as [|c line IH]; [discriminate |].
  cbn [ends_clean rstrip]. destruct line as [|d line].
  - intros H. apply negb_true_iff in H. cbn. now rewrite H.
  - intros H. destruct (IH H) as [Hr Hne]. rewrite Hr. now split.
Qed.

Lemma rstrip_app_keep (a b : string) :
  rstrip b = b -> is_empty b = false -> rstrip (a +:+ b) = a +:+ b.
Proof.
  intros Hb Hne. induction a as [|c a IH]; cbn [append rstrip].
  - exact Hb.
  - rewrite IH. destruct (a +:+ b) eqn:E; [|reflexivity].
    destruct a; cbn in E; [subst b|]; discriminate.
Qed.

Lemma strip_records (first body final : string) :
  starts_clean first = true -> ends_clean final = true ->
  strip (first +:+ body +:+ final) = first +:+ body +:+ final.
Proof.
  intros Hfirst Hfinal. unfold strip.
  destruct first as [|c first]; [discriminate |].
  cbn [starts_clean] in Hfirst. apply negb_true_iff in Hfirst.
  cbn [append lstrip]. rewrite Hfirst.
  change (String c (first +:+ body +:+ final))
    with (String c first +:+ body +:+ final).
  destruct (rstrip_clean final Hfinal) as [Hr Hne].
  rewrite <- !append_assoc. now apply rstrip_app_keep.
Qed.

(** X14.  An input of two or more lines, the first starting and the
    last ending with a character that is no white space, whose whole
    text does not decode, is read line by line: blank lines are left
    out, the other lines are decoded in their order, and the rows are
    those of the decoded events.  White space around the input, such as
    a final line feed, changes nothing. *)
Theorem lines_are_read_in_order (rt : runtime) (argv : list string)
  (first : string) (middle : list string) (final lead trail : string)
  (evs : list json) :
  let lines := first :: middle ++ [final] in
  let text := first +:+ nl +:+ lines_text middle +:+ final in
  Forall (fun line => no_break line = true) lines ->
  starts_clean first = true ->
  ends_clean final = true ->
  all_chars is_space lead = true ->
  all_chars is_space trail = true ->
  loads rt text = None ->
  decode_lines rt (filter (nonblank) lines) = Some evs ->
  Forall (fun ev => is_event ev = true) evs ->
  read_events rt (strip (lead +:+ text +:+ trail)) = Ok (JArr evs)
  /\ run (main rt argv (lead +:+ text +:+ trail))
     = (lines_text (header :: rows_of rt (team_of argv) evs), Ok tt).
Proof.
  intros lines text Hlines Hfirst Hfinal Hlead Htrail Hwhole Hdecode Hevs.
  assert (Hread : read_events rt (strip (lead +:+ text +:+ trail)) = Ok (JArr evs)).
  { assert (Hstrip : strip text = text)
      by exact (strip_records first (nl +:+ lines_text middle) final
                  Hfirst Hfinal).
    rewrite (strip_padded lead text trail Hlead Htrail), Hstrip.
    unfold read_events. rewrite Hwhole. unfold text.
    rewrite (splitlines_records first middle final Hlines
               (proj2 (rstrip_clean final Hfinal))).
    fold lines. now rewrite Hdecode. }
  split; [exact Hread |].
  now apply main_events.
Qed.

Lemma lines_are_read_in_order_witness :
  let r1 := quoted "{'type':'bet','message':'T: bet of 40 (raise)'}" in
  let r2 := quoted "{'type':'winner_announcement','message':'T wins'}" in
  run (main model_runtime ["summarize_logs.py"; "T"]
         ("" +:+ (r1 +:+ nl +:+ lines_text ["  "] +:+ r2) +:+ nl))
  = (lines_text
       [header;
        join tab [""; "PRE"; "raise"; "40"; ""; ""; "T: bet of 40 (raise)"];
        join tab [""; "PRE"; "won"; ""; ""; ""; "T wins"]],
     Ok tt).
Proof.
  intros r1 r2.
  destruct (lines_are_read_in_order model_runtime
              ["summarize_logs.py"; "T"] r1 ["  "] r2 "" nl
              [JObj [("type", JStr "bet");
                     ("message", JStr "T: bet of 40 (raise)")];
               JObj [("type", JStr "winner_announcement");
                     ("message", JStr "T wins")]]) as [_ Hrun].
  - repeat constructor.
  - reflexivity.
  - reflexivity.
  - reflexivity.
  - reflexivity.
  - vm_compute. reflexivity.
  - vm_compute. reflexivity.
  - repeat constructor.
  - exact Hrun.
Defined.

(** ** Independent events *)

Lemma rows_of_app (rt : runtime) (team : string) (evs1 evs2 : list json) :
  rows_of rt team (evs1 ++ evs2) = rows_of rt team evs1 ++ rows_of rt team evs2.
Proof. unfold rows_of. now rewrite filter_app, map_app. Qed.

(** X15.  The pass keeps no state between events: the rows written for
    a sequence of events followed by another one are the rows written
    for the first sequence followed by the rows written for the second
    one, after a single header. *)
Theorem rows_of_joined_inputs (rt : runtime) (argv : list string)
  (stdin1 stdin2 stdin : string) (evs1 evs2 : list json) :
  read_events rt (strip stdin1) = Ok (JArr evs1) ->
  read_events rt (strip stdin2) = Ok (JArr evs2) ->
  read_events rt (strip stdin) = Ok (JArr (evs1 ++ evs2)) ->
  Forall (fun ev => is_event ev = true) evs1 ->
  Forall (fun ev => is_event ev = true) evs2 ->
  exists rows1 rows2,
    run (main rt argv stdin1) = (lines_text (header :: rows1), Ok tt)
    /\ run (main rt argv stdin2) = (lines_text (header :: rows2), Ok tt)
    /\ run (main rt argv stdin) = (lines_text (header :: rows1 ++ rows2), Ok tt).
Proof.
  intros H1 H2 H H1e H2e.
  exists (rows_of rt (team_of argv) evs1), (rows_of rt (team_of argv) evs2).
  repeat split.
  - now apply main_events.
  - now apply main_events.
  - rewrite <- rows_of_app. apply main_events; [exact H |].
    apply Forall_app. now split.
Qed.

Lemma rows_of_joined_inputs_witness :
  exists rows1 rows2,
    run (main model_runtime ["summarize_logs.py"; "T"]
           (quoted "[{'type':'bet','message':'T: bet of 3'}]"))
    = (lines_text (header :: rows1), Ok tt)
    /\ run (main model_runtime ["summarize_logs.py"; "T"]
              (quoted "[{'type':'x'},{'type':'bet','message':'T: bet of 3'}]"))
       = (lines_text (header :: rows2), Ok tt)
    /\ run (main model_runtime ["summarize_logs.py"; "T"]
              (quoted "[{'type':'bet','message':'T: bet of 3'},{'type':'x'},{'type':'bet','message':'T: bet of 3'}]"))
       = (lines_text (header :: rows1 ++ rows2), Ok tt).
Proof.
  apply (rows_of_joined_inputs model_runtime ["summarize_logs.py"; "T"] _ _ _
           [JObj [("type", JStr "bet"); ("message", JStr "T: bet of 3")]]
           [JObj [("type", JStr "x")];
            JObj [("type", JStr "bet"); ("message", JStr "T: bet of 3")]]).
  - vm_compute. reflexivity.
  - vm_compute. reflexivity.
  - vm_compute. reflexivity.
  - repeat constructor.
  - repeat constructor.
Defined.

(** ** Errors *)

(** X16.  street_from_state raises an attribute error on a state that is
    not a record and a type error on a record whose community_cards is
    a scalar; on a record whose community_cards is a list it returns
    the street of the number of items, for a string the street of the
    number of characters, and for a dictionary the street of the number
    of keys. *)
Theorem street_from_state_errors (state : json) :
  let cc := field "community_cards" (JArr []) state in
  (is_record state = false -> street_from_state state = Raise AttributeError)
  /\ (is_record state = true -> is_scalar cc = true ->
      street_from_state state = Raise TypeError)
  /\ (is_record state = true -> forall items, cc = JArr items ->
      street_from_state state = Ok (street_name (List.length items)))
  /\ (is_record state = true -> forall s, cc = JStr s ->
      street_from_state state = Ok (street_name (String.length s)))
  /\ (is_record state = true -> forall fields, cc = JObj fields ->
      street_from_state state = Ok (street_name (List.length fields))).
Proof.
  intros cc. unfold street_from_state.
  split; [|split; [|split; [|split]]].
  - intros H. destruct state; try reflexivity. discriminate.
  - intros Hrec Hcc. rewrite (get_record _ _ _ Hrec). cbn [res_bind]. fold cc.
    destruct cc; try discriminate; reflexivity.
  - intros Hrec items Hcc. rewrite (get_record _ _ _ Hrec). cbn [res_bind].
    fold cc. rewrite Hcc. cbn [PyVal.len res_bind]. now rewrite table_get_street.
  - intros Hrec s Hcc. rewrite (get_record _ _ _ Hrec). cbn [res_bind].
    fold cc. rewrite Hcc. cbn [PyVal.len res_bind]. now rewrite table_get_street.
  - intros Hrec fields Hcc. rewrite (get_record _ _ _ Hrec). cbn [res_bind].
    fold cc. rewrite Hcc. cbn [PyVal.len res_bind]. now rewrite table_get_street.
Qed.

(** X17.  A bet or a winner announcement whose message is a scalar
    raises a type error, and so does a bet whose message is a list or
    a dictionary that holds the team name, on a game state of the data
    model: only a string can be searched for the amount.  Nothing is
    written for such an event. *)
Theorem bad_message_raises (rt : runtime) (team : string) (ev : json)
  (out : string) :
  is_record ev = true ->
  let msg := field "message" (JStr "") ev in
  (PyVal.eq_str (event_type ev) "bet" = true
   \/ PyVal.eq_str (event_type ev) "winner_announcement" = true ->
   is_scalar msg = true ->
   handle rt team ev out = (out, Raise TypeError))
  /\ (PyVal.eq_str (event_type ev) "bet" = true ->
      is_string msg = false ->
      PyVal.str_in team msg = Ok true ->
      is_game_state (event_state ev) = true ->
      handle rt team ev out = (out, Raise TypeError)).
Proof.
  intros Hrec msg. split.
  - intros Htype Hmsg. unfold handle.
    rewrite !(get_record ev _ _ Hrec), !bind_ok.
    fold (event_type ev) msg.
    assert (Hin : PyVal.str_in team msg = Raise TypeError)
      by (destruct msg; try discriminate; reflexivity).
    rewrite Hin.
    destruct (PyVal.eq_str (event_type ev) "bet") eqn:Hbet;
      cbn [PyVal.and_then]; [reflexivity |].
    destruct Htype as [Hb | Hw]; [discriminate |].
    rewrite bind_ok. cbv beta iota. now rewrite Hw.
  - intros Hbet Hmsg Hin Hgs. unfold handle.
    rewrite !(get_record ev _ _ Hrec), !bind_ok.
    fold (event_type ev) (event_state ev) msg.
    rewrite Hbet, Hin. cbn [PyVal.and_then]. rewrite bind_ok. cbv beta iota.
    pose proof Hgs as Hgrec. unfold is_game_state in Hgrec.
    apply andb_prop in Hgrec as [Hgrec _].
    rewrite (get_record _ _ _ Hgrec), bind_ok.
    rewrite (street_of_game_state _ Hgs), bind_ok.
    destruct msg; try discriminate; reflexivity.
Qed.

Lemma bad_message_raises_witness :
  handle model_runtime "T"
    (JObj [("type", JStr "winner_announcement"); ("message", JNull)]) "so far"
  = ("so far", Raise TypeError)
  /\ handle model_runtime "T"
       (JObj [("type", JStr "bet"); ("message", JArr [JStr "T"])]) "so far"
     = ("so far", Raise TypeError).
Proof.
  split.
  - destruct (bad_message_raises model_runtime "T"
                (JObj [("type", JStr "winner_announcement");
                       ("message", JNull)]) "so far" eq_refl) as [Hscalar _].
    apply Hscalar; [right |]; reflexivity.
  - destruct (bad_message_raises model_runtime "T"
                (JObj [("type", JStr "bet"); ("message", JArr [JStr "T"])])
                "so far" eq_refl) as [_ Hlist].
    apply Hlist; reflexivity.
Defined.

Lemma get_raises (x : json) (k : string) (d : json) (e : exn) :
  PyVal.get x k d = Raise e -> e = AttributeError.
Proof. destruct x; cbn; intros H; inversion H; reflexivity. Qed.

Lemma str_in_raises (s : string) (x : json) (e : exn) :
  PyVal.str_in s x = Raise e -> e = TypeError.
Proof. destruct x; cbn; intros H; inversion H; reflexivity. Qed.

Lemma street_raises (state : json) (e : exn) :
  street_from_state state = Raise e -> e <> JSONDecodeError.
Proof.
  unfold street_from_state.
  destruct (PyVal.get state "community_cards" (JArr [])) as [cc|e1] eqn:E1;
    cbn [res_bind].
  - destruct (PyVal.len cc) as [n|e2] eqn:E2; cbn [res_bind]; [discriminate |].
    intros H. inversion H. subst. destruct cc; inversion E2; discriminate.
  - intros H. inversion H. subst. apply get_raises in E1. now subst.
Qed.

Lemma action_raises (msg : json) (amt : string) (e : exn) :
  action_of msg amt = Raise e -> e <> JSONDecodeError.
Proof.
  destruct msg; cbn; try (intros H; inversion H; discriminate);
    repeat match goal with
           | |- context [if ?b then _ else _] => destruct b
           end; discriminate.
Qed.

(** The body of the loop never raises a decoding error. *)
Lemma handle_raises (rt : runtime) (team : string) (ev : json)
  (out out' : string) (e : exn) :
  handle rt team ev out = (out', Raise e) -> e <> JSONDecodeError.
Proof.
  unfold handle, bind, lift.
  destruct (PyVal.get ev "type" (JStr "")) as [t|e0] eqn:Et;
    [|intros H; inversion H; subst; apply get_raises in Et; now subst].
  destruct (PyVal.get ev "game_state" (JObj [])) as [gs|e0] eqn:Eg;
    [|intros H; inversion H; subst; apply get_raises in Eg; now subst].
  destruct (PyVal.get ev "message" (JStr "")) as [msg|e0] eqn:Em;
    [|intros H; inversion H; subst; apply get_raises in Em; now subst].
  assert (Hand : forall a e0,
    PyVal.and_then a (PyVal.str_in team msg) = Raise e0 -> e0 <> JSONDecodeError).
  { intros [] e0; cbn; [|discriminate].
    intros H. apply str_in_raises in H. now subst. }
  assert (Hget : forall k d e0,
    PyVal.get gs k d = Raise e0 -> e0 <> JSONDecodeError).
  { intros k d e0 H. apply get_raises in H. now subst. }
  destruct (PyVal.and_then (PyVal.eq_str t "bet") (PyVal.str_in team msg))
    as [[]|e0] eqn:Eb;
    [| |intros H; inversion H; subst; now apply (Hand _ _ Eb)].
  - destruct (PyVal.get gs "round" (JStr "")) as [rnd|e0] eqn:E1;
      [|intros H; inversion H; subst; now apply (Hget _ _ _ E1)].
    destruct (street_from_state gs) as [st|e0] eqn:E2;
      [|intros H; inversion H; subst; now apply (street_raises _ _ E2)].
    destruct (re_search amount_pattern msg) as [m|e0] eqn:E3;
      [|intros H; inversion H; subst; destruct msg; inversion E3; discriminate].
    destruct (action_of msg (amount_of m)) as [act|e0] eqn:E4;
      [|intros H; inversion H; subst; now apply (action_raises _ _ _ E4)].
    destruct (PyVal.get gs "pot" (JStr "")) as [pot|e0] eqn:E5;
      [|intros H; inversion H; subst; now apply (Hget _ _ _ E5)].
    destruct (PyVal.get gs "current_buy_in" (JStr "")) as [buyin|e0] eqn:E6;
      [|intros H; inversion H; subst; now apply (Hget _ _ _ E6)].
    discriminate.
  - destruct (PyVal.and_then (PyVal.eq_str t "winner_announcement")
                (PyVal.str_in team msg)) as [[]|e0] eqn:Ew;
      [| discriminate |intros H; inversion H; subst; now apply (Hand _ _ Ew)].
    destruct (PyVal.get gs "round" (JStr "")) as [rnd|e0] eqn:E1;
      [|intros H; inversion H; subst; now apply (Hget _ _ _ E1)].
    destruct (street_from_state gs) as [st|e0] eqn:E2;
      [|intros H; inversion H; subst; now apply (street_raises _ _ E2)].
    destruct (PyVal.get gs "pot" (JStr "")) as [pot|e0] eqn:E5;
      [|intros H; inversion H; subst; now apply (Hget _ _ _ E5)].
    destruct (PyVal.get gs "current_buy_in" (JStr "")) as [buyin|e0] eqn:E6;
      [|intros H; inversion H; subst; now apply (Hget _ _ _ E6)].
    discriminate.
Qed.

Lemma for_each_extends (rt : runtime) (team : string) (evs : list json)
  (out out' : string) (r : res unit) :
  for_each evs (handle rt team) out = (out', r) ->
  (exists written, out' = out +:+ written)
  /\ r <> Raise JSONDecodeError.
Proof.
  revert out. induction evs as [|ev evs IH]; intros out H.
  - cbn in H. inversion H. subst. split; [|discriminate].
    exists "". now rewrite append_nil_r.
  - cbn [for_each] in H. unfold bind in H.
    destruct (handle_writes_last rt team ev) as [Hframe _].
    destruct (handle rt team ev out) as [o [[]|e]] eqn:E.
    + destruct (IH o H) as [[w Hw] Hr]. split; [|exact Hr].
      rewrite Hframe in E. inversion E as [[Ho Hs]].
      exists (fst (handle rt team ev "") +:+ w).
      now rewrite Hw, <- Ho, append_assoc.
    + inversion H. subst. split.
      * rewrite Hframe in E. inversion E as [[Ho Hs]]. now eexists.
      * intros Hr. inversion Hr. subst.
        now apply (handle_raises rt team ev out out' JSONDecodeError E).
Qed.

(** X18.  For every decoder, either the input does not decode, and
    then nothing at all is written and the run ends with the decoding
    error, or the first thing written is the header line and the run
    does not end with a decoding error.  No row is ever written without
    the header before it, and no decoding error follows any output. *)
Theorem header_comes_first (rt : runtime) (argv : list string)
  (stdin : string) :
  (read_events rt (strip stdin) = Raise JSONDecodeError
   /\ run (main rt argv stdin) = ("", Raise JSONDecodeError))
  \/ (exists events rest r,
        read_events rt (strip stdin) = Ok events
        /\ run (main rt argv stdin) = (header +:+ nl +:+ rest, r)
        /\ r <> Raise JSONDecodeError).
Proof.
  rewrite main_unfold.
  destruct (read_events rt (strip stdin)) as [events|e] eqn:Hread.
  - right.
    destruct (PyVal.iterate events) as [evs|e] eqn:Hiter.
    + destruct (for_each evs (handle rt (team_of argv)) (header +:+ nl))
        as [o r] eqn:E.
      destruct (for_each_extends _ _ _ _ _ _ E) as [[w ->] Hr].
      exists events, w, r. rewrite append_assoc. auto.
    + exists events, "", (Raise e). rewrite append_nil_r.
      repeat split.
      destruct events; inversion Hiter; discriminate.
  - left. unfold read_events in Hread.
    destruct (loads rt (strip stdin)); [discriminate |].
    destruct (decode_lines rt _); [discriminate |].
    inversion Hread. now split.
Qed.

(** ** The fields of a winner row *)

Lemma split_length (c : ascii) (s : string) :
  List.length (split c s) = count_char c s + 1.
Proof.
  induction s as [|d s IH]; [reflexivity |].
  cbn [split count_char]. destruct (Ascii.eqb c d); cbn [List.length].
  - now rewrite IH.
  - destruct (split c s); cbn in *; lia.
Qed.

Lemma split_last (c : ascii) (a : string) :
  count_char c a = 0 -> split c a = [a].
Proof.
  induction a as [|d a IH]; [reflexivity |].
  cbn [split count_char]. destruct (Ascii.eqb c d); [discriminate |].
  intros H. now rewrite (IH H).
Qed.

Lemma split_field (c : ascii) (a rest : string) :
  count_char c a = 0 -> split c (a +:+ String c rest) = a :: split c rest.
Proof.
  induction a as [|d a IH]; cbn [append split count_char].
  - now rewrite Ascii.eqb_refl.
  - destruct (Ascii.eqb c d); [discriminate |].
    intros H. now rewrite (IH H).
Qed.

(** C4 (amended).  A winner announcement of the data model whose
    message contains the team name is reported as one row: the round,
    empty when absent, the street, the word won, an empty amount, the
    pot, the current buy-in and the message, joined by tabs.  Split at
    its tabs the row has seven fields plus one for each tab that the
    round, the pot, the buy-in and the message hold; when these four
    hold no tab the fields are exactly the seven.  With five community
    cards and the pot 250 the row reads round, RIVER, won, nothing,
    250, buy-in, message. *)
Theorem winner_row (rt : runtime) (team : string) (ev : json) (out : string) :
  is_event ev = true ->
  event_type ev = JStr "winner_announcement" ->
  contains (event_message ev) team = true ->
  let gs := event_state ev in
  let rnd := fmt rt (field "round" (JStr "") gs) in
  let pot := fmt rt (field "pot" (JStr "") gs) in
  let buyin := fmt rt (field "current_buy_in" (JStr "") gs) in
  let msg := event_message ev in
  let row := join tab [rnd; street_name (cards_count gs); "won"; ""; pot;
                       buyin; msg] in
  handle rt team ev out = (out +:+ row +:+ nl, Ok tt)
  /\ (forall fields, gs = JObj fields ->
      PyVal.lookup "round" fields = None -> rnd = "")
  /\ (cards_count gs = 5 -> field "pot" (JStr "") gs = JInt 250 ->
      handle rt team ev out
      = (out +:+ rnd +:+ tab +:+ "RIVER" +:+ tab +:+ "won" +:+ tab +:+ ""
         +:+ tab +:+ "250" +:+ tab +:+ buyin +:+ tab +:+ msg +:+ nl,
         Ok tt))
  /\ List.length (split "009"%char row)
     = 7 + count_char "009"%char rnd + count_char "009"%char pot
       + count_char "009"%char buyin + count_char "009"%char msg
  /\ (count_char "009"%char rnd = 0 -> count_char "009"%char pot = 0 ->
      count_char "009"%char buyin = 0 -> count_char "009"%char msg = 0 ->
      split "009"%char row
      = [rnd; street_name (cards_count gs); "won"; ""; pot; buyin; msg]).
Proof.
  intros Hev Ht Hm gs rnd pot buyin msg row.
  destruct (is_win_intro team ev Ht Hm) as [Hbet Hwin].
  pose proof (handle_win rt team ev out Hev Hbet Hwin) as Hrun.
  destruct (event_parts ev Hev) as (_ & _ & _ & Hgrec).
  split; [exact Hrun | split; [|split; [|split]]].
  - intros fields Hgs Habs. unfold rnd, field. now rewrite Hgs, Habs.
  - intros H5 Hpot. rewrite Hrun. unfold win_row.
    fold gs rnd buyin msg. rewrite H5, Hpot.
    unfold join. cbn [String.concat]. rewrite !append_assoc. reflexivity.
  - rewrite split_length.
    pose proof (row_tabs rt team ev) as Htabs. cbv zeta in Htabs.
    unfold row_of in Htabs. rewrite Hbet in Htabs.
    change (win_row rt ev) with row in Htabs. fold gs rnd pot buyin msg in Htabs.
    lia.
  - intros Hrnd Hpot Hbuyin Hmsg. unfold row, join, tab.
    cbn [String.concat append].
    rewrite (split_field _ rnd _ Hrnd).
    rewrite (split_field _ _ _ (street_name_no_tab (cards_count gs))).
    change (String "w" (String "o" (String "n" (String "009" (String "009"
              (pot +:+ String "009" (buyin +:+ String "009" msg)))))))
      with ("won" +:+ String "009" ("" +:+ String "009"
              (pot +:+ String "009" (buyin +:+ String "009" msg)))).
    rewrite (split_field "009"%char "won" _ eq_refl).
    rewrite (split_field "009"%char "" _ eq_refl).
    rewrite (split_field _ pot _ Hpot).
    rewrite (split_field _ buyin _ Hbuyin).
    now rewrite (split_last _ msg Hmsg).
Qed.

Lemma winner_row_witness :
  let ev :=
    JObj [("type", JStr "winner_announcement");
          ("message", JStr "T won 250");
          ("game_state",
            JObj [("round", JInt 9);
                  ("community_cards",
                    JArr [JStr "2H"; JStr "3D"; JStr "KS"; JStr "AC"; JStr "9C"]);
                  ("pot", JInt 250);
                  ("current_buy_in", JInt 40)])] in
  handle model_runtime "T" ev ""
  = (join tab ["9"; "RIVER"; "won"; ""; "250"; "40"; "T won 250"] +:+ nl,
     Ok tt)
  /\ split "009"%char
       (join tab ["9"; "RIVER"; "won"; ""; "250"; "40"; "T won 250"])
     = ["9"; "RIVER"; "won"; ""; "250"; "40"; "T won 250"].
Proof.
  intros ev.
  destruct (winner_row model_runtime "T" ev "")
    as (_ & _ & Hriver & _ & Hsplit);
    [reflexivity | reflexivity | reflexivity |].
  split.
  - rewrite Hriver; reflexivity.
  - apply Hsplit; reflexivity.
Defined.

(** The claim as first stated fails when the message holds a tab: the
    row of one winner announcement then splits into eight fields. *)
Lemma winner_row_tab_counterexample :
  let ev := JObj [("type", JStr "winner_announcement");
                  ("message", JStr ("T" +:+ tab +:+ "wins"))] in
  is_event ev = true
  /\ event_type ev = JStr "winner_announcement"
  /\ contains (event_message ev) "T" = true
  /\ exists row,
       handle model_runtime "T" ev "" = (row +:+ nl, Ok tt)
       /\ List.length (split "009"%char row) = 8.
Proof.
  intros ev. repeat split.
  exists (join tab [""; "PRE"; "won"; ""; ""; ""; "T" +:+ tab +:+ "wins"]).
  split; reflexivity.
Qed.
